(** * WonderComic front end: story store, panel edits and book pagination

    A shallow embedding of the TypeScript sources
      - [types.ts]                       (Story, ComicPanelData, KidProfile)
      - [services/backendApi.ts]         (REST wrappers, [editPanelImage])
      - [hooks/useStoryGenerator.ts]     ([mapApiStory], [generateStory], [updatePanel])
      - [components/ComicPanel.tsx]      ([handleEdit])
      - [components/MainPage.tsx]        ([handleWizardComplete], page-state derivation)

    JavaScript numbers that hold counts, indices and database ids are
    modelled as [Z] (all values involved are far below 2^53, where the
    double arithmetic of the source is exact); [undefined]/[null] as
    [None]; strings as [string]. *)

From Stdlib Require Import ZArith QArith Qround List String Ascii Bool Lia.
From Stdlib Require Import DecimalString.
Import ListNotations.

Close Scope Q_scope.
Open Scope string_scope.
Open Scope list_scope.
Open Scope Z_scope.

(* ------------------------------------------------------------------ *)
(** ** JavaScript primitives used by the sources *)

Module JS.

(** Truthiness of a string: only the empty string is falsy. *)
Definition truthy_str (s : string) : bool :=
  match s with EmptyString => false | String _ _ => true end.

(** Truthiness of a [string | null | undefined]. *)
Definition truthy_ostr (o : option string) : bool :=
  match o with Some s => truthy_str s | None => false end.

(** Truthiness of an integer-valued number: only [0] is falsy. *)
Definition truthy_num (n : Z) : bool := negb (n =? 0).

(** Truthiness of a [number | null | undefined]. *)
Definition truthy_onum (o : option Z) : bool :=
  match o with Some n => truthy_num n | None => false end.

(** [x || d] for [x : string | null] and a string default. *)
Definition or_str (x : option string) (d : string) : string :=
  match x with
  | Some s => if truthy_str s then s else d
  | None => d
  end.

(** [x || undefined] for [x : string | null]. *)
Definition or_undefined (x : option string) : option string :=
  match x with
  | Some s => if truthy_str s then Some s else None
  | None => None
  end.

(** [x || d] for [x : number | undefined] and a number default. *)
Definition or_num (x : option Z) (d : Z) : Z :=
  match x with
  | Some n => if truthy_num n then n else d
  | None => d
  end.

(** [s.startsWith(p)]. *)
Definition startsWith (s p : string) : bool := String.prefix p s.

(** [s.split(sep)] for a one-character separator. *)
Fixpoint split (sep : ascii) (s : string) : list string :=
  match s with
  | EmptyString => [EmptyString]
  | String c rest =>
      if Ascii.eqb c sep then EmptyString :: split sep rest
      else match split sep rest with
           | hd :: tl => String c hd :: tl
           | [] => [String c EmptyString]
           end
  end.

(** [arr[i]] for an integer [i]: [undefined] outside the array. *)
Definition index {A : Type} (arr : list A) (i : Z) : option A :=
  if i <? 0 then None else nth_error arr (Z.to_nat i).

(** [arr.length]. *)
Definition length {A : Type} (arr : list A) : Z := Z.of_nat (List.length arr).

(** [String(n)] and [`${n}`] for an integer [n]. *)
Definition String_of_num (n : Z) : string := NilZero.string_of_int (Z.to_int n).

(** [Math.ceil(a / b)] on integers [a], [b]: the quotient is formed
    first (exactly, as a rational) and then rounded up. *)
Definition Math_ceil_div (a b : Z) : Z := Qceiling (inject_Z a / inject_Z b)%Q.

(** [Math.max], [Math.min] on integers. *)
Definition Math_max (a b : Z) : Z := Z.max a b.
Definition Math_min (a b : Z) : Z := Z.min a b.

(** [arr.findIndex(pred)]: first index satisfying [pred], [-1] if none. *)
Fixpoint findIndex_from {A : Type} (pred : A -> bool) (arr : list A) (i : Z) : Z :=
  match arr with
  | [] => -1
  | x :: rest => if pred x then i else findIndex_from pred rest (i + 1)
  end.

Definition findIndex {A : Type} (pred : A -> bool) (arr : list A) : Z :=
  findIndex_from pred arr 0.

End JS.

(* ------------------------------------------------------------------ *)
(** ** types.ts *)

Module Types.

Inductive Gender := boy | girl | neutral.

Record KidProfile := mkKidProfile {
  name : string;
  gender : Gender;
  skinTone : string;
  hairColor : string;
  eyeColor : string;
  favoriteColor : string;
  dream : string;
  personality : string;
  archetype : option string;
  photoUrl : option string;
  artStyle : option string
}.

Record ComicPanelData := mkComicPanelData {
  id : string;
  text : string;
  imagePrompt : string;
  imageUrl : option string;
  isGenerating : option bool
}.

Record Story := mkStory {
  title : string;
  foreword : string;
  characterDescription : string;
  coverImagePrompt : string;
  coverImageUrl : option string;
  panels : list ComicPanelData
}.

End Types.

(* ------------------------------------------------------------------ *)
(** ** services/backendApi.ts: wire formats *)

Module KidProfileResponse.
Record t := mk {
  id : Z;
  name : string;
  gender : Types.Gender;
  skin_tone : string;
  hair_color : string;
  eye_color : string;
  favorite_color : string;
  dream : option string;
  archetype : option string;
  art_style : option string;
  created_at : string
}.
End KidProfileResponse.

Module PanelResponse.
Record t := mk {
  id : Z;
  panel_order : Z;
  text : string;
  image_prompt : option string;
  image_url : option string
}.
End PanelResponse.

Module StoryDetailResponse.
Record t := mk {
  id : Z;
  title : option string;
  foreword : option string;
  character_description : option string;
  cover_image_prompt : option string;
  cover_image_url : option string;
  is_unlocked : bool;
  created_at : string;
  updated_at : string;
  profile : KidProfileResponse.t;
  panels : list PanelResponse.t
}.
End StoryDetailResponse.

Module KidProfileForGeneration.
Record t := mk {
  name : string;
  gender : Types.Gender;
  skin_tone : string;
  hair_color : string;
  eye_color : string;
  favorite_color : string;
  dream : option string;
  archetype : option string;
  art_style : option string;
  photo_base64 : option string
}.
End KidProfileForGeneration.

Module GenerateAndSaveStoryResponse.
Record t := mk { story : StoryDetailResponse.t }.
End GenerateAndSaveStoryResponse.

(** Body of a successful [/generate/edit-image] answer. *)
Module EditImageResponse.
Record t := mk { image_base64 : string }.
End EditImageResponse.

(** A JSON value as far as [v || d] and [new Error(v)] look at it: the
    error body of a generation endpoint has no declared type. *)
Module JsValue.
Inductive t :=
| Undefined
| Null
| Str (s : string)
| Other (truthy : bool) (text : string).
(* [Other]: a number, boolean, array or object, given by its
   truthiness and by [String(v)] (["[object Object]"] for the list of
   objects in a validation error). *)

Definition truthy (v : t) : bool :=
  match v with
  | Str s => JS.truthy_str s
  | Other b _ => b
  | Undefined | Null => false
  end.

(** [String(v)], the message [new Error(v)] gets for [v !== undefined]. *)
Definition toString (v : t) : string :=
  match v with
  | Undefined => "undefined"
  | Null => "null"
  | Str s => s
  | Other _ text => text
  end.
End JsValue.

(** Body of a non-2xx answer of a generation endpoint, as parsed by
    [response.json()]: [detail] is whatever the property holds
    ([Undefined] when the body has no such property). *)
Module ErrorBody.
Record t := mk { detail : JsValue.t }.
End ErrorBody.

(* ------------------------------------------------------------------ *)
(** ** Execution model: React state cells, exceptions, observable effects *)

Module Runtime.

(** A thrown value: an [Error] instance with its message, or anything
    else (for instance the event a [FileReader] rejects with). *)
Inductive JsError :=
| ErrorObj (message : string)
| NonError.

(** Completion of a call or of an awaited promise. *)
Inductive outcome (A : Type) :=
| Ok (a : A)
| Throw (e : JsError).
Arguments Ok {A} a.
Arguments Throw {A} e.

Inductive Method := GET | POST | PATCH | DELETE.

(** The object handed to [JSON.stringify] as request body. *)
Inductive Body :=
| NoBody
| GenerateBody (profile : KidProfileForGeneration.t)
| EditImageBody (image_base64 : option string)
                (original_prompt edit_prompt cast_guide : string)
                (style : option string)
| PanelImageBody (image_base64 : string).

Record Request := mkRequest {
  method : Method;
  url : string;
  body : Body
}.

(** A [fetch] response.  [json] is [response.json()] read at the type
    the caller expects on success, [error_json] the same body read as
    an error value ([None] when the body is the JSON [null]); each may
    reject when the body does not parse. *)
Record Response (A : Type) := mkResponse {
  ok : bool;
  statusText : string;
  json : outcome A;
  error_json : outcome (option ErrorBody.t)
}.
Arguments mkResponse {A} _ _ _ _.
Arguments ok {A} _.
Arguments statusText {A} _.
Arguments json {A} _.
Arguments error_json {A} _.

(** [enum AppState] of MainPage.tsx. *)
Inductive AppState := ONBOARDING | GENERATING_SCRIPT | STORYBOARD.

(** Everything the outside can observe, in the order it happens:
    network requests, notifications, console output, and the writes
    to the two cells of the story store. *)
Inductive Event :=
| Fetch (req : Request)
| ToastError (msg : string)
| ConsoleLog (msg : string)
| ConsoleError (msg : option string) (err : JsError)
| SetStory (s : option Types.Story)
| SetSavedStoryId (i : option Z).

(** The [useState] cells of the hook, of [MainPage] and of the
    [ComicPanel] under edit, with the trace of effects so far. *)
Record World := mkWorld {
  (* useStoryGenerator *)
  story : option Types.Story;
  savedStoryId : option Z;
  (* MainPage *)
  view : AppState;
  profile : option Types.KidProfile;
  currentPage : Z;
  (* ComicPanel *)
  isEditing : bool;
  editPrompt : string;
  isProcessing : bool;
  (* effects *)
  trace : list Event
}.

(** Computations: state passing with exceptions. *)
Definition M (A : Type) : Type := World -> outcome A * World.

Definition ret {A} (a : A) : M A := fun w => (Ok a, w).

Definition bind {A B} (m : M A) (k : A -> M B) : M B :=
  fun w => match m w with
           | (Ok a, w') => k a w'
           | (Throw e, w') => (Throw e, w')
           end.

Definition throw {A} (e : JsError) : M A := fun w => (Throw e, w).

(** [try { m } catch (err) { h err }] *)
Definition try_catch {A} (m : M A) (h : JsError -> M A) : M A :=
  fun w => match m w with
           | (Ok a, w') => (Ok a, w')
           | (Throw e, w') => h e w'
           end.

(** [try { m } finally { f }] *)
Definition finally {A} (m : M A) (f : M unit) : M A :=
  fun w => match m w with
           | (r, w') => match f w' with
                        | (Ok _, w'') => (r, w'')
                        | (Throw e, w'') => (Throw e, w'')
                        end
           end.

(** Settling of an awaited promise. *)
Definition await {A} (r : outcome A) : M A := fun w => (r, w).

(** Calling an async function without awaiting it: its effects take
    place, a rejection is not seen by the caller.  (The callee's
    effects after its first [await] are logged here rather than after
    the caller's remaining statements; [handleEdit] only writes
    component-local cells after such a call, which the trace does not
    record.) *)
Definition detached {A} (m : M A) : M unit :=
  fun w => (Ok tt, snd (m w)).

Definition emit (e : Event) : M unit :=
  fun w => (Ok tt,
            mkWorld (story w) (savedStoryId w) (view w) (profile w) (currentPage w)
                    (isEditing w) (editPrompt w) (isProcessing w) (trace w ++ [e])).

(** A network exchange: the request is recorded, the environment
    (which may look at everything that happened before) answers. *)
Definition fetch {R} (server : list Event -> Request -> outcome R)
           (req : Request) : M R :=
  fun w => bind (emit (Fetch req)) (fun _ => await (server (trace w) req)) w.

Definition get {A} (f : World -> A) : M A := fun w => (Ok (f w), w).

(** State setters. *)
Definition setStory (s : option Types.Story) : M unit :=
  bind (emit (SetStory s)) (fun _ w =>
    (Ok tt, mkWorld s (savedStoryId w) (view w) (profile w) (currentPage w)
                    (isEditing w) (editPrompt w) (isProcessing w) (trace w))).

Definition setSavedStoryId (i : option Z) : M unit :=
  bind (emit (SetSavedStoryId i)) (fun _ w =>
    (Ok tt, mkWorld (story w) i (view w) (profile w) (currentPage w)
                    (isEditing w) (editPrompt w) (isProcessing w) (trace w))).

Definition setView (v : AppState) : M unit :=
  fun w => (Ok tt, mkWorld (story w) (savedStoryId w) v (profile w) (currentPage w)
                           (isEditing w) (editPrompt w) (isProcessing w) (trace w)).

Definition setProfile (p : option Types.KidProfile) : M unit :=
  fun w => (Ok tt, mkWorld (story w) (savedStoryId w) (view w) p (currentPage w)
                           (isEditing w) (editPrompt w) (isProcessing w) (trace w)).

Definition setCurrentPage (f : Z -> Z) : M unit :=
  fun w => (Ok tt, mkWorld (story w) (savedStoryId w) (view w) (profile w)
                           (f (currentPage w))
                           (isEditing w) (editPrompt w) (isProcessing w) (trace w)).

Definition setIsEditing (b : bool) : M unit :=
  fun w => (Ok tt, mkWorld (story w) (savedStoryId w) (view w) (profile w) (currentPage w)
                           b (editPrompt w) (isProcessing w) (trace w)).

Definition setEditPrompt (s : string) : M unit :=
  fun w => (Ok tt, mkWorld (story w) (savedStoryId w) (view w) (profile w) (currentPage w)
                           (isEditing w) s (isProcessing w) (trace w)).

Definition setIsProcessing (b : bool) : M unit :=
  fun w => (Ok tt, mkWorld (story w) (savedStoryId w) (view w) (profile w) (currentPage w)
                           (isEditing w) (editPrompt w) b (trace w)).

Definition toast_error (msg : string) : M unit := emit (ToastError msg).
Definition console_log (msg : string) : M unit := emit (ConsoleLog msg).
Definition console_error (msg : option string) (err : JsError) : M unit :=
  emit (ConsoleError msg err).

(** Network requests among the events. *)
Definition requests (t : list Event) : list Request :=
  flat_map (fun e => match e with Fetch r => [r] | _ => [] end) t.

(** User-visible error notifications among the events. *)
Definition toasts (t : list Event) : list string :=
  flat_map (fun e => match e with ToastError m => [m] | _ => [] end) t.

Declare Scope js_scope.
Delimit Scope js_scope with js.
Notation "x <- m ;; k" := (bind m (fun x => k))
  (at level 100, m at next level, right associativity) : js_scope.
Notation "m ;; k" := (bind m (fun _ => k))
  (at level 100, right associativity) : js_scope.

End Runtime.

(* ------------------------------------------------------------------ *)
(** ** services/backendApi.ts: functions *)

Module BackendApi.
Import Runtime.
Local Open Scope js_scope.

(** The back end as seen from the browser: one answering function per
    endpoint, and for an image download the data URL that
    [FileReader.readAsDataURL] makes of the bytes received (or the
    rejection of the download or of the reader). *)
Record Server := mkServer {
  on_generate : list Event -> Request -> outcome (Response GenerateAndSaveStoryResponse.t);
  on_edit_image : list Event -> Request -> outcome (Response EditImageResponse.t);
  on_panel_patch : list Event -> Request -> outcome (Response unit);
  on_image_get : list Event -> Request -> outcome string
}.

Section Api.
(** [import.meta.env.VITE_API_BASE_URL || 'http://localhost:8000'] *)
Variable API_BASE_URL : string.
Variable server : Server.

Definition API_BASE : string := (API_BASE_URL ++ "/api")%string.

Definition getImageUrl (filename : option string) : option string :=
  match filename with
  | None => None
  | Some f =>
      if negb (JS.truthy_str f) then None
      else if JS.startsWith f "data:" || JS.startsWith f "http" then Some f
      else Some (API_BASE_URL ++ "/images/" ++ f)%string
  end.

Definition apiFetch {A} (on : list Event -> Request -> outcome (Response A))
           (url : string) (m : Method) (b : Body) : M (Response A) :=
  fetch on (mkRequest m url b).

(** The message of [new Error(error.detail || fallback)] after
    [const error = await response.json().catch(() => ({}))]: reading
    [detail] of a [null] body throws a [TypeError] instead. *)
Definition error_message {A} (response : Response A) (fallback : string)
  : outcome string :=
  match error_json response with
  | Ok (Some error) =>
      Ok (if JsValue.truthy (ErrorBody.detail error)
          then JsValue.toString (ErrorBody.detail error)
          else fallback)
  | Ok None => Throw (ErrorObj "Cannot read properties of null (reading 'detail')")
  | Throw _ => Ok fallback
  end.

Definition updatePanelImage (storyId panelOrder : Z) (imageBase64 : string) : M unit :=
  response <- apiFetch (on_panel_patch server)
                (API_BASE ++ "/stories/" ++ JS.String_of_num storyId
                          ++ "/panels/" ++ JS.String_of_num panelOrder)%string
                PATCH (PanelImageBody imageBase64) ;;
  if negb (ok response)
  then throw (ErrorObj ("Failed to update panel image: " ++ statusText response)%string)
  else ret tt.

Definition generateAndSaveStory (profile : KidProfileForGeneration.t)
  : M GenerateAndSaveStoryResponse.t :=
  response <- apiFetch (on_generate server) (API_BASE ++ "/stories/generate")%string
                POST (GenerateBody profile) ;;
  if negb (ok response)
  then
    message <- await (error_message response
                        ("Failed to generate story: " ++ statusText response)%string) ;;
    throw (ErrorObj message)
  else await (json response).

(** [fetch(url)], [response.blob()], [reader.readAsDataURL(blob)],
    then [resolve(dataUrl.split(',')[1])]. *)
Definition urlToBase64 (url : string) : M (option string) :=
  dataUrl <- fetch (on_image_get server) (mkRequest GET url NoBody) ;;
  ret (JS.index (JS.split "," dataUrl) 1).

(** Lines 354-362 of [editPanelImage]: the value of [pureBase64]. *)
Definition pureBase64 (imageSource : string) : M (option string) :=
  if JS.startsWith imageSource "data:" then
    ret (JS.index (JS.split "," imageSource) 1)
  else if JS.startsWith imageSource "http" then
    urlToBase64 imageSource
  else
    ret (Some imageSource).

Definition editPanelImage (imageSource editPrompt originalPrompt castGuide : string)
           (style : option string) : M string :=
  pureBase64 <- pureBase64 imageSource ;;
  response <- apiFetch (on_edit_image server) (API_BASE ++ "/generate/edit-image")%string
                POST (EditImageBody pureBase64 originalPrompt editPrompt castGuide style) ;;
  if negb (ok response)
  then
    message <- await (error_message response
                        ("Failed to edit image: " ++ statusText response)%string) ;;
    throw (ErrorObj message)
  else
    data <- await (json response) ;;
    ret ("data:image/png;base64," ++ EditImageResponse.image_base64 data)%string.

End Api.
End BackendApi.

(* ------------------------------------------------------------------ *)
(** ** hooks/useStoryGenerator.ts *)

Module StoryGenerator.
Import Types Runtime.
Local Open Scope js_scope.

Definition mapApiPanel (p : PanelResponse.t) : ComicPanelData :=
  {| id := JS.String_of_num (PanelResponse.id p);
     text := PanelResponse.text p;
     imagePrompt := JS.or_str (PanelResponse.image_prompt p) "";
     imageUrl := JS.or_undefined (PanelResponse.image_url p);
     isGenerating := Some false |}.

Definition mapApiStory (data : StoryDetailResponse.t) : Story :=
  {| title := JS.or_str (StoryDetailResponse.title data) "";
     foreword := JS.or_str (StoryDetailResponse.foreword data) "";
     characterDescription := JS.or_str (StoryDetailResponse.character_description data) "";
     coverImagePrompt := JS.or_str (StoryDetailResponse.cover_image_prompt data) "";
     coverImageUrl := JS.or_undefined (StoryDetailResponse.cover_image_url data);
     panels := map mapApiPanel (StoryDetailResponse.panels data) |}.

Section Hook.
Variable API_BASE_URL : string.
Variable server : BackendApi.Server.

Definition profileForApi (p : KidProfile) : KidProfileForGeneration.t :=
  {| KidProfileForGeneration.name := name p;
     KidProfileForGeneration.gender := gender p;
     KidProfileForGeneration.skin_tone := skinTone p;
     KidProfileForGeneration.hair_color := hairColor p;
     KidProfileForGeneration.eye_color := eyeColor p;
     KidProfileForGeneration.favorite_color := favoriteColor p;
     KidProfileForGeneration.dream := Some (dream p);
     KidProfileForGeneration.archetype := archetype p;
     KidProfileForGeneration.art_style := artStyle p;
     KidProfileForGeneration.photo_base64 :=
       match photoUrl p with
       | Some u => if JS.startsWith u "data:" then JS.index (JS.split "," u) 1 else None
       | None => None
       end |}.

Definition generateStory (p : KidProfile) : M unit :=
  result <- BackendApi.generateAndSaveStory API_BASE_URL server (profileForApi p) ;;
  setSavedStoryId (Some (StoryDetailResponse.id (GenerateAndSaveStoryResponse.story result))) ;;
  setStory (Some (mapApiStory (GenerateAndSaveStoryResponse.story result))).

(** [story.panels.map(p => p.id === updated.id ? updated : p)] *)
Definition replacePanel (updated : ComicPanelData) (ps : list ComicPanelData)
  : list ComicPanelData :=
  map (fun p => if String.eqb (id p) (id updated) then updated else p) ps.

(** [updatePanel] called from the render that created it: the [story]
    and [savedStoryId] it closes over are then the current contents of
    the cells.  [Closure.updatePanelOf] is the callback of any render,
    with the captured values explicit. *)
Definition updatePanel (updated : ComicPanelData) : M unit :=
  story <- get Runtime.story ;;
  match story with
  | None => ret tt
  | Some story =>
      let panelOrder :=
        JS.findIndex (fun p => String.eqb (id p) (id updated)) (panels story) in
      setStory (Some {| title := title story;
                        foreword := foreword story;
                        characterDescription := characterDescription story;
                        coverImagePrompt := coverImagePrompt story;
                        coverImageUrl := coverImageUrl story;
                        panels := replacePanel updated (panels story) |}) ;;
      savedStoryId <- get Runtime.savedStoryId ;;
      if JS.truthy_onum savedStoryId && negb (panelOrder =? -1)
         && JS.truthy_ostr (imageUrl updated)
      then
        match savedStoryId, imageUrl updated with
        | Some sid, Some img =>
            try_catch
              (BackendApi.updatePanelImage API_BASE_URL server sid panelOrder img ;;
               console_log ("Panel " ++ JS.String_of_num panelOrder
                                     ++ " saved to backend")%string)
              (fun err => console_error (Some "Failed to save panel edit:") err)
        | _, _ => ret tt
        end
      else ret tt
  end.

End Hook.
End StoryGenerator.

(* ------------------------------------------------------------------ *)
(** ** components/ComicPanel.tsx *)

Module ComicPanel.
Import Types Runtime.
Local Open Scope js_scope.

Section Component.
Variable API_BASE_URL : string.
Variable server : BackendApi.Server.
(* props *)
Variable panel : ComicPanelData.
Variable onUpdate : ComicPanelData -> M unit.
Variable charDesc : string.
Variable profile : option KidProfile.

Definition resolvedImageUrl : option string :=
  match imageUrl panel with
  | Some u =>
      if JS.truthy_str u
      then (if JS.startsWith u "data:" then Some u
            else BackendApi.getImageUrl API_BASE_URL (Some u))
      else None
  | None => None
  end.

Definition isDataUrl : bool :=
  match imageUrl panel with
  | Some u => JS.startsWith u "data:"
  | None => false
  end.

(** [resolvedImageUrl || panel.imageUrl] *)
Definition sourceUrl : option string :=
  if JS.truthy_ostr resolvedImageUrl then resolvedImageUrl else imageUrl panel.

(** [{ ...panel, imageUrl: newImageUrl }] *)
Definition withImage (newImageUrl : string) : ComicPanelData :=
  {| id := id panel;
     text := text panel;
     imagePrompt := imagePrompt panel;
     imageUrl := Some newImageUrl;
     isGenerating := isGenerating panel |}.

(** [editPanelImage(sourceUrl, editPrompt, panel.imagePrompt,
    charDesc, profile?.artStyle)] (lines 33-39). *)
Definition editRequest (editPrompt : string) : M string :=
  match sourceUrl with
  | Some src =>
      BackendApi.editPanelImage API_BASE_URL server src editPrompt
        (imagePrompt panel) charDesc
        (match profile with Some p => artStyle p | None => None end)
  | None =>
      (* [undefined.startsWith] inside [editPanelImage] *)
      throw (ErrorObj "Cannot read properties of undefined")
  end.

(** [onUpdate(...)] is called inside the [try] block and not awaited
    (line 40).  A throw of [onUpdate] here is a synchronous throw of the
    callback and lands in the [catch] block.  An async callback never
    throws synchronously: its rejection goes to a promise nobody looks
    at, so such a callback [f] is passed as [fun u => detached (f u)]. *)
Definition handleEdit : M unit :=
  editPrompt <- get Runtime.editPrompt ;;
  if negb (JS.truthy_ostr (imageUrl panel)) || negb (JS.truthy_str editPrompt)
  then ret tt
  else
    setIsProcessing true ;;
    finally
      (try_catch
         (newImageUrl <- editRequest editPrompt ;;
          onUpdate (withImage newImageUrl) ;;
          setIsEditing false ;;
          setEditPrompt "")
         (fun err =>
            console_error None err ;;
            toast_error "Oops! Magic failed. Try again."))
      (setIsProcessing false).

End Component.
End ComicPanel.

(* ------------------------------------------------------------------ *)
(** ** components/MainPage.tsx *)

Module MainPage.
Import Types.

(** *** Page-state derivation (lines 98-100) *)

(** [story?.panels.length || 10] *)
Definition panelCount (story : option Story) : Z :=
  JS.or_num (option_map (fun s => JS.length (panels s)) story) 10.

(** [Math.ceil((panelCount + 2) / 2)] *)
Definition spreadsNeeded (story : option Story) : Z :=
  JS.Math_ceil_div (panelCount story + 2) 2.

(** [2 + spreadsNeeded] *)
Definition totalStates (story : option Story) : Z :=
  2 + spreadsNeeded story.

(** [navigate(dir)]: the updater passed to [setCurrentPage]. *)
Definition navigate (story : option Story) (dir p : Z) : Z :=
  JS.Math_max 0 (JS.Math_min (totalStates story - 1) (p + dir)).

(** *** The book container (lines 157-252)

    What one half of an open spread shows: the introduction, the
    closing page, or [<ComicPanel panel={story.panels[idx]} />]. *)
Inductive Slot :=
| Foreword
| Closing
| PanelSlot (idx : Z).

(** The blocks the book container can render. *)
Inductive Block :=
| FrontCover
| Spread (left right : Slot)
| BackCover.

(** Left page of a spread (lines 197-210). *)
Definition leftPage (currentPage : Z) : Slot :=
  if currentPage =? 1 then Foreword
  else PanelSlot ((currentPage - 1) * 2 - 1).

(** Right page of a spread (lines 216-230). *)
Definition rightPage (totalStates currentPage : Z) : Slot :=
  if currentPage =? totalStates - 2 then Closing
  else PanelSlot ((currentPage - 1) * 2).

(** The three conditional blocks of the container, in source order:
    each [cond && (...)] contributes its block when [cond] holds. *)
Definition book (totalStates currentPage : Z) : list Block :=
  (if currentPage =? 0 then [FrontCover] else []) ++
  (if (0 <? currentPage) && (currentPage <? totalStates - 1)
   then [Spread (leftPage currentPage) (rightPage totalStates currentPage)]
   else []) ++
  (if currentPage =? totalStates - 1 then [BackCover] else []).

(** The panel a slot hands to [ComicPanel]: [story.panels[idx]]. *)
Definition slotPanel (story : Story) (s : Slot) : option ComicPanelData :=
  match s with
  | PanelSlot idx => JS.index (panels story) idx
  | _ => None
  end.

(** The content slots of a block in reading order (left, then right). *)
Definition slotsOf (b : Block) : list Slot :=
  match b with
  | Spread l r => [l; r]
  | _ => []
  end.

(** State indices [0 .. T-1]. *)
Definition states (T : Z) : list Z := map Z.of_nat (seq 0 (Z.to_nat T)).

(** The slots laid out while paging from state [0] to state [T-1], in
    reading order.  This is the layout only: whether the panel a slot
    asks for exists, and hence whether the state renders at all, is
    decided by [BookView.renderStoryboard]. *)
Definition readingOrder (T : Z) : list Slot :=
  flat_map (fun i => flat_map slotsOf (book T i)) (states T).

Definition Slot_eq_dec : forall a b : Slot, {a = b} + {a <> b}.
Proof. decide equality; apply Z.eq_dec. Defined.

(** *** Wizard completion (lines 43-55) *)
Section Handlers.
Import Runtime.
Local Open Scope js_scope.
Variable API_BASE_URL : string.
Variable server : BackendApi.Server.

Definition handleWizardComplete (p : KidProfile) : M unit :=
  setProfile (Some p) ;;
  setView GENERATING_SCRIPT ;;
  try_catch
    (StoryGenerator.generateStory API_BASE_URL server p ;;
     setView STORYBOARD)
    (fun err =>
       let message := match err with
                      | ErrorObj m => m
                      | NonError => "Generation failed"
                      end in
       toast_error message ;;
       setView ONBOARDING).

End Handlers.

End MainPage.


(* ------------------------------------------------------------------ *)
(** ** Vocabulary of the statements *)

Module Spec.
Import Types MainPage.

(** Panel indices [a, a+1, ..., a+len-1] as slots. *)
Definition panelRun (a len : nat) : list Slot :=
  map PanelSlot (map Z.of_nat (seq a len)).

(** The shape of a book: foreword, a run of [m] panels, closing page. *)
Definition bookShape (m : nat) : list Slot :=
  Foreword :: panelRun 0 m ++ [Closing].

(** A slot occurs exactly once in a sequence of slots. *)
Definition shown_once (l : list Slot) (s : Slot) : Prop :=
  count_occ Slot_eq_dec l s = 1%nat.

(** Slot [a] comes strictly before slot [b] in a sequence of slots. *)
Definition precedes (l : list Slot) (a b : Slot) : Prop :=
  exists p q : nat, (p < q)%nat /\ nth_error l p = Some a /\ nth_error l q = Some b.

(** No slot of the sequence asks for a panel outside [0, n-1]. *)
Definition slots_in_range (n : Z) (l : list Slot) : Prop :=
  forall idx, In (PanelSlot idx) l -> 0 <= idx < n.

(** [c] is the ceiling of [a / 2]. *)
Definition is_ceil_half (a c : Z) : Prop := a <= 2 * c < a + 2.

(** The total number of states the design document prescribes for
    [n] panels: [2 + ceil((n + 2) / 2)]. *)
Definition documented_totalStates (n : Z) : Z := 2 + JS.Math_ceil_div (n + 2) 2.

(** [s] with an empty string standing in for [null]. *)
Definition or_empty (o : option string) : string :=
  match o with Some x => x | None => "" end.

(** [story] with its panels replaced by [ps]: [{ ...story, panels: ps }]. *)
Definition withPanels (story : Story) (ps : list ComicPanelData) : Story :=
  {| title := title story;
     foreword := foreword story;
     characterDescription := characterDescription story;
     coverImagePrompt := coverImagePrompt story;
     coverImageUrl := coverImageUrl story;
     panels := ps |}.

(** Console output, as opposed to requests, notifications and store writes. *)
Definition is_console (e : Runtime.Event) : bool :=
  match e with
  | Runtime.ConsoleLog _ | Runtime.ConsoleError _ _ => true
  | _ => false
  end.

(** Network requests, as opposed to every other observable effect. *)
Definition is_request (e : Runtime.Event) : bool :=
  match e with
  | Runtime.Fetch _ => true
  | _ => false
  end.

(** The world after the store's story cell was written and events were logged. *)
Definition stored (w : Runtime.World) (s : option Story) (evs : list Runtime.Event)
  : Runtime.World :=
  Runtime.mkWorld s (Runtime.savedStoryId w) (Runtime.view w) (Runtime.profile w)
                  (Runtime.currentPage w) (Runtime.isEditing w) (Runtime.editPrompt w)
                  (Runtime.isProcessing w) (Runtime.trace w ++ evs).

(** The world after events were logged, the cells untouched. *)
Definition logged (w : Runtime.World) (evs : list Runtime.Event) : Runtime.World :=
  stored w (Runtime.story w) evs.

(** Sample data: a story with [n] panels, ids ["0"], ["1"], ... *)
Definition samplePanel (i : nat) : ComicPanelData :=
  {| id := JS.String_of_num (Z.of_nat i);
     text := "caption";
     imagePrompt := "prompt";
     imageUrl := Some "data:image/png;base64,AAAA";
     isGenerating := Some false |}.

Definition sampleStory (n : nat) : Story :=
  {| title := "A tale";
     foreword := "Once upon a time";
     characterDescription := "a small hero";
     coverImagePrompt := "cover";
     coverImageUrl := None;
     panels := map samplePanel (seq 0 n) |}.

Definition sampleProfile : KidProfile :=
  {| name := "Mia"; gender := girl; skinTone := "tan"; hairColor := "black";
     eyeColor := "brown"; favoriteColor := "green"; dream := "astronaut";
     personality := ""; archetype := None; photoUrl := None; artStyle := None |}.

(** A persisted story whose optional fields are all null. *)
Definition sampleResponse : StoryDetailResponse.t :=
  {| StoryDetailResponse.id := 7;
     StoryDetailResponse.title := None;
     StoryDetailResponse.foreword := None;
     StoryDetailResponse.character_description := None;
     StoryDetailResponse.cover_image_prompt := None;
     StoryDetailResponse.cover_image_url := None;
     StoryDetailResponse.is_unlocked := true;
     StoryDetailResponse.created_at := "2026-02-01";
     StoryDetailResponse.updated_at := "2026-02-01";
     StoryDetailResponse.profile :=
       KidProfileResponse.mk 1 "Mia" girl "tan" "black" "brown" "green"
                             None None None "2026-02-01";
     StoryDetailResponse.panels :=
       [PanelResponse.mk 41 0 "first" None None;
        PanelResponse.mk 42 1 "second" (Some "a castle") (Some "42.png")] |}.

(** A back end that answers every request successfully. *)
Definition acceptingServer : BackendApi.Server :=
  {| BackendApi.on_generate := fun _ _ =>
       Runtime.Ok (Runtime.mkResponse true "OK"
                     (Runtime.Ok (GenerateAndSaveStoryResponse.mk sampleResponse))
                     (Runtime.Throw Runtime.NonError));
     BackendApi.on_edit_image := fun _ _ =>
       Runtime.Ok (Runtime.mkResponse true "OK"
                     (Runtime.Ok (EditImageResponse.mk "BBBB"))
                     (Runtime.Throw Runtime.NonError));
     BackendApi.on_panel_patch := fun _ _ =>
       Runtime.Ok (Runtime.mkResponse true "OK" (Runtime.Ok tt)
                     (Runtime.Throw Runtime.NonError));
     BackendApi.on_image_get := fun _ _ =>
       Runtime.Ok "data:image/png;base64,AAAA" |}.

(** A back end that cannot be reached. *)
Definition unreachableServer : BackendApi.Server :=
  {| BackendApi.on_generate := fun _ _ => Runtime.Throw (Runtime.ErrorObj "Failed to fetch");
     BackendApi.on_edit_image := fun _ _ => Runtime.Throw (Runtime.ErrorObj "Failed to fetch");
     BackendApi.on_panel_patch := fun _ _ => Runtime.Throw (Runtime.ErrorObj "Failed to fetch");
     BackendApi.on_image_get := fun _ _ => Runtime.Throw (Runtime.ErrorObj "Failed to fetch") |}.

(** A reader looking at a ten-panel story saved under [sid], with the
    edit dialog open and an instruction typed in. *)
Definition readingWorld (sid : option Z) : Runtime.World :=
  Runtime.mkWorld (Some (sampleStory 10)) sid Runtime.STORYBOARD (Some sampleProfile) 3
                  true "add a dragon" false [].

(** A fresh session. *)
Definition initialWorld : Runtime.World :=
  Runtime.mkWorld None None Runtime.ONBOARDING None 0 false "" false [].

End Spec.

(* ------------------------------------------------------------------ *)
(** ** services/backendApi.ts: the story library endpoints *)

Module StoryListItem.
Record t := mk {
  id : Z;
  title : option string;
  cover_image_url : option string;
  is_unlocked : bool;
  created_at : string;
  profile : KidProfileResponse.t
}.
End StoryListItem.

Module Library.
Import Runtime.
Local Open Scope js_scope.

(** The library side of the back end: list, read and delete. *)
Record Server := mkServer {
  on_stories_get : list Event -> Request -> outcome (Response (list StoryListItem.t));
  on_story_get : list Event -> Request -> outcome (Response StoryDetailResponse.t);
  on_story_delete : list Event -> Request -> outcome (Response unit)
}.

Section Api.
Variable API_BASE_URL : string.
Variable server : Server.

Definition getStories : M (list StoryListItem.t) :=
  response <- BackendApi.apiFetch (on_stories_get server)
                (BackendApi.API_BASE API_BASE_URL ++ "/stories")%string GET NoBody ;;
  if negb (ok response)
  then throw (ErrorObj ("Failed to fetch stories: " ++ statusText response)%string)
  else await (json response).

Definition getStory (storyId : Z) : M StoryDetailResponse.t :=
  response <- BackendApi.apiFetch (on_story_get server)
                (BackendApi.API_BASE API_BASE_URL ++ "/stories/"
                   ++ JS.String_of_num storyId)%string GET NoBody ;;
  if negb (ok response)
  then throw (ErrorObj ("Failed to fetch story: " ++ statusText response)%string)
  else await (json response).


End Api.
End Library.

(* ------------------------------------------------------------------ *)
(** ** components/MainPage.tsx: loading a saved story, progress bar *)

Module History.
Import Types Runtime.
Local Open Scope js_scope.

(** The [loadedStory] literal (lines 61-74). *)
Definition loadedStory (data : StoryDetailResponse.t) : Story :=
  {| title := JS.or_str (StoryDetailResponse.title data) "";
     foreword := JS.or_str (StoryDetailResponse.foreword data) "";
     characterDescription := JS.or_str (StoryDetailResponse.character_description data) "";
     coverImagePrompt := JS.or_str (StoryDetailResponse.cover_image_prompt data) "";
     coverImageUrl := JS.or_undefined (StoryDetailResponse.cover_image_url data);
     panels :=
       map (fun p =>
              {| id := JS.String_of_num (PanelResponse.id p);
                 text := PanelResponse.text p;
                 imagePrompt := JS.or_str (PanelResponse.image_prompt p) "";
                 imageUrl := JS.or_undefined (PanelResponse.image_url p);
                 isGenerating := Some false |})
           (StoryDetailResponse.panels data) |}.

(** The object passed to [setProfile] (lines 75-86), at the fields of
    the [KidProfile] interface.  (The literal also carries [ageRange],
    which the interface does not declare and nothing reads.) *)
Definition loadedProfile (data : StoryDetailResponse.t) : KidProfile :=
  let pr := StoryDetailResponse.profile data in
  {| name := KidProfileResponse.name pr;
     gender := KidProfileResponse.gender pr;
     skinTone := KidProfileResponse.skin_tone pr;
     hairColor := KidProfileResponse.hair_color pr;
     eyeColor := KidProfileResponse.eye_color pr;
     favoriteColor := KidProfileResponse.favorite_color pr;
     dream := JS.or_str (KidProfileResponse.dream pr) "";
     personality := "";
     archetype := KidProfileResponse.archetype pr;
     photoUrl := None;
     artStyle := None |}.

Section Handlers.
Variable API_BASE_URL : string.
Variable library : Library.Server.

Definition loadStoryFromHistory (storyId : Z) : M unit :=
  setView GENERATING_SCRIPT ;;
  try_catch
    (data <- Library.getStory API_BASE_URL library storyId ;;
     setProfile (Some (loadedProfile data)) ;;
     setStory (Some (loadedStory data)) ;;
     setSavedStoryId (Some storyId) ;;
     setCurrentPage (fun _ => 0) ;;
     setView STORYBOARD)
    (fun err =>
       console_error (Some "Failed to load story:") err ;;
       toast_error "Failed to load story" ;;
       setView ONBOARDING).

End Handlers.

(** The label of the bottom progress bar (line 258). *)
Definition progressLabel (totalStates currentPage : Z) : string :=
  if currentPage =? 0 then "Front Cover"
  else if currentPage =? totalStates - 1 then "Back Cover"
  else ("Spread " ++ JS.String_of_num currentPage)%string.

(** The dots of the progress bar (lines 261-263): one per state, the
    one at [currentPage] highlighted. *)
Definition progressDots (totalStates currentPage : Z) : list bool :=
  map (fun i => i =? currentPage) (MainPage.states totalStates).

End History.

(* ------------------------------------------------------------------ *)
(** ** components/ComicPanel.tsx: what a panel shows *)

Module ComicPanelView.
Import Types.

(** The image container (lines 55-77). *)
Inductive ImageArea :=
| PaintingScene
| SceneImage (src : string) (editButton : bool)
| AwaitingVision.

Section View.
Variable API_BASE_URL : string.
Variable panel : ComicPanelData.

Definition imageArea : ImageArea :=
  match isGenerating panel with
  | Some true => PaintingScene
  | _ =>
      match ComicPanel.resolvedImageUrl API_BASE_URL panel with
      | Some src =>
          if JS.truthy_str src
          then SceneImage src (ComicPanel.isDataUrl panel)
          else AwaitingVision
      | None => AwaitingVision
      end
  end.

(** [panel.text || "..."] (line 83). *)
Definition caption : string := JS.or_str (Some (text panel)) "...".

End View.
End ComicPanelView.

(* ------------------------------------------------------------------ *)
(** ** components/GalleryPage.tsx *)

Module GalleryPage.
Import Runtime.
Local Open Scope js_scope.

(** The two [useState] cells of the page. *)
Record Cells := mkCells {
  stories : list StoryListItem.t;
  loading : bool
}.

Section Handlers.
Variable API_BASE_URL : string.
Variable library : Library.Server.

(** [loadStories]: returns the cells after the call.  The [finally]
    block is the last step: neither the [try] block as a whole nor the
    [catch] block can throw. *)
Definition loadStories (c : Cells) : M Cells :=
  c' <- try_catch
          (data <- Library.getStories API_BASE_URL library ;;
           ret (mkCells data (loading c)))
          (fun err =>
             console_error (Some "Failed to load stories") err ;;
             let message := match err with
                            | ErrorObj m => m
                            | NonError => "Unknown error"
                            end in
             toast_error ("Failed to load stories: " ++ message)%string ;;
             ret c) ;;
  ret (mkCells (stories c') false).


End Handlers.
End GalleryPage.

(* ------------------------------------------------------------------ *)
(** ** components/KidWizard.tsx: the step buttons *)

Module KidWizard.
Import Types.

Definition STEP_LABELS : list (Z * string) :=
  [(1, "Hero"); (2, "Look"); (3, "Role"); (4, "Dream"); (5, "Style")].

Definition totalSteps : Z := JS.length STEP_LABELS.

Inductive Click := Back | Continue.

(** One click on the button row (lines 307-329): the new step and the
    profile handed to [onSubmit], if any.  The Back button is rendered
    only when [step > 1]. *)
Definition click (c : Click) (step : Z) (profile : KidProfile) : Z * option KidProfile :=
  match c with
  | Back => if 1 <? step then (step - 1, None) else (step, None)
  | Continue => if step <? totalSteps then (step + 1, None) else (step, Some profile)
  end.

(** A sequence of clicks: the final step and the submitted profiles. *)
Fixpoint clicks (cs : list Click) (step : Z) (profile : KidProfile)
  : Z * list KidProfile :=
  match cs with
  | [] => (step, [])
  | c :: rest =>
      let '(step', sub) := click c step profile in
      let '(final, subs) := clicks rest step' profile in
      (final, match sub with Some p => p :: subs | None => subs end)
  end.

(** How often Continue occurs in a sequence of clicks. *)
Definition continues (cs : list Click) : Z :=
  Z.of_nat (List.length (filter (fun c => match c with Continue => true | Back => false end) cs)).

End KidWizard.

(* ------------------------------------------------------------------ *)
(** ** Further vocabulary and sample data *)

Module Scenarios.
Import Types.

(** [s] does not contain the character [sep]. *)
Fixpoint free_of (sep : ascii) (s : string) : bool :=
  match s with
  | EmptyString => true
  | String c rest => negb (Ascii.eqb c sep) && free_of sep rest
  end.

(** Starts like an inline image or like an absolute address. *)
Definition fetchable (u : string) : bool :=
  JS.startsWith u "data:" || JS.startsWith u "http".

(** Store writes among the events. *)
Definition is_store_write (e : Runtime.Event) : bool :=
  match e with
  | Runtime.SetStory _ | Runtime.SetSavedStoryId _ => true
  | _ => false
  end.

(** A back end that refuses to generate, with an optional detail text. *)
Definition refusingServer (detail : JsValue.t) : BackendApi.Server :=
  {| BackendApi.on_generate := fun _ _ =>
       Runtime.Ok (Runtime.mkResponse false "Internal Server Error"
                     (Runtime.Throw Runtime.NonError)
                     (Runtime.Ok (Some (ErrorBody.mk detail))));
     BackendApi.on_edit_image := fun _ _ => Runtime.Throw (Runtime.ErrorObj "Failed to fetch");
     BackendApi.on_panel_patch := fun _ _ => Runtime.Throw (Runtime.ErrorObj "Failed to fetch");
     BackendApi.on_image_get := fun _ _ => Runtime.Throw (Runtime.ErrorObj "Failed to fetch") |}.

Definition sampleListItem (i : Z) : StoryListItem.t :=
  StoryListItem.mk i (Some "A tale") None true "2026-02-01"
    (KidProfileResponse.mk 1 "Mia" girl "tan" "black" "brown" "green"
                           None None None "2026-02-01").

(** A library holding the sample story and answering every request. *)
Definition openLibrary : Library.Server :=
  {| Library.on_stories_get := fun _ _ =>
       Runtime.Ok (Runtime.mkResponse true "OK"
                     (Runtime.Ok [sampleListItem 7; sampleListItem 8])
                     (Runtime.Throw Runtime.NonError));
     Library.on_story_get := fun _ _ =>
       Runtime.Ok (Runtime.mkResponse true "OK" (Runtime.Ok Spec.sampleResponse)
                     (Runtime.Throw Runtime.NonError));
     Library.on_story_delete := fun _ _ =>
       Runtime.Ok (Runtime.mkResponse true "OK" (Runtime.Ok tt)
                     (Runtime.Throw Runtime.NonError)) |}.


(** A panel whose image is a stored file. *)
Definition storedPanel : ComicPanelData :=
  {| id := "42"; text := "second"; imagePrompt := "a castle";
     imageUrl := Some "42.png"; isGenerating := Some false |}.

End Scenarios.

(* ------------------------------------------------------------------ *)
(** ** hooks/useStoryGenerator.ts: [updatePanel] as a closure *)

Module Closure.
Import Types Runtime.
Local Open Scope js_scope.

Section Hook.
Variable API_BASE_URL : string.
Variable server : BackendApi.Server.

(** The [updatePanel] created by a render in which the hook's cells
    held [story] and [savedStoryId] (lines 27-28, 54-72).  The body
    reads these captured values, and [setStory] is given a story built
    from the captured one (there is no functional updater); the cells
    may have been written since the render. *)
Definition updatePanelOf (story : option Story) (savedStoryId : option Z)
           (updated : ComicPanelData) : M unit :=
  match story with
  | None => ret tt
  | Some story =>
      let panelOrder :=
        JS.findIndex (fun p => String.eqb (id p) (id updated)) (panels story) in
      setStory (Some {| title := title story;
                        foreword := foreword story;
                        characterDescription := characterDescription story;
                        coverImagePrompt := coverImagePrompt story;
                        coverImageUrl := coverImageUrl story;
                        panels := StoryGenerator.replacePanel updated (panels story) |}) ;;
      if JS.truthy_onum savedStoryId && negb (panelOrder =? -1)
         && JS.truthy_ostr (imageUrl updated)
      then
        match savedStoryId, imageUrl updated with
        | Some sid, Some img =>
            try_catch
              (BackendApi.updatePanelImage API_BASE_URL server sid panelOrder img ;;
               console_log ("Panel " ++ JS.String_of_num panelOrder
                                     ++ " saved to backend")%string)
              (fun err => console_error (Some "Failed to save panel edit:") err)
        | _, _ => ret tt
        end
      else ret tt
  end.

End Hook.
End Closure.

(* ------------------------------------------------------------------ *)
(** ** components/MainPage.tsx and ComicPanel.tsx: rendering the book *)

Module BookView.
Import Types Runtime MainPage.

(** [ComicPanel] begins by reading [panel.imageUrl] (ComicPanel.tsx:20):
    for an undefined [panel] that is a [TypeError], and nothing above
    the component catches it. *)
Definition renderComicPanel (panel : option ComicPanelData) : outcome unit :=
  match panel with
  | Some _ => Ok tt
  | None => Throw (ErrorObj "Cannot read properties of undefined (reading 'imageUrl')")
  end.

(** One half of a spread (part_002:197-210, 216-230). *)
Definition renderSlot (story : Story) (s : Slot) : outcome unit :=
  match s with
  | PanelSlot idx => renderComicPanel (JS.index (panels story) idx)
  | Foreword | Closing => Ok tt
  end.

Definition renderBlock (story : Story) (b : Block) : outcome Block :=
  match b with
  | Spread l r =>
      match renderSlot story l with
      | Throw e => Throw e
      | Ok _ => match renderSlot story r with
                | Throw e => Throw e
                | Ok _ => Ok b
                end
      end
  | FrontCover | BackCover => Ok b
  end.

Fixpoint renderBlocks (story : Story) (bs : list Block) : outcome (list Block) :=
  match bs with
  | [] => Ok []
  | b :: rest =>
      match renderBlock story b with
      | Throw e => Throw e
      | Ok b' => match renderBlocks story rest with
                 | Throw e => Throw e
                 | Ok rest' => Ok (b' :: rest')
                 end
      end
  end.

(** The storyboard branch of the page (part_002:126-268): the book is
    rendered only in the [STORYBOARD] view and with a story. *)
Definition renderStoryboard (view : AppState) (story : option Story) (currentPage : Z)
  : outcome (list Block) :=
  match view, story with
  | STORYBOARD, Some s => renderBlocks s (book (totalStates (Some s)) currentPage)
  | _, _ => Ok []
  end.

(** What the states render, one after the other.  A throw while
    rendering is not caught by any error boundary (App.tsx, index.tsx),
    so React unmounts the page and the paging ends there. *)
Fixpoint pagingThrough (view : AppState) (story : option Story) (pages : list Z)
  : list (outcome (list Block)) :=
  match pages with
  | [] => []
  | i :: rest =>
      match renderStoryboard view story i with
      | Ok blocks => Ok blocks :: pagingThrough view story rest
      | Throw e => [Throw e]
      end
  end.

(** Paging from the front cover towards the back cover. *)
Definition paging (view : AppState) (story : option Story) : list (outcome (list Block)) :=
  pagingThrough view story (states (totalStates story)).

End BookView.

(* ------------------------------------------------------------------ *)
(** * Properties *)

Import Types Runtime.

(** ** Arithmetic of the page-state derivation *)

Lemma Math_ceil_div_2 (a : Z) : JS.Math_ceil_div a 2 = (a + 1) / 2.
Proof.
  unfold JS.Math_ceil_div, Qceiling, Qfloor. simpl.
  rewrite Z.mul_1_r. Z.div_mod_to_equations. lia.
Qed.

Lemma panelCount_displayed (story : Story) :
  MainPage.panelCount (Some story) =
  if JS.length (panels story) =? 0 then 10 else JS.length (panels story).
Proof.
  unfold MainPage.panelCount, JS.or_num, JS.truthy_num. simpl.
  destruct (JS.length (panels story) =? 0); reflexivity.
Qed.

Lemma panelCount_pos (story : option Story) : 1 <= MainPage.panelCount story.
Proof.
  destruct story as [st|]; [rewrite panelCount_displayed|cbv; discriminate].
  unfold JS.length. destruct (Z.eqb_spec (Z.of_nat (List.length (panels st))) 0); lia.
Qed.

Lemma spreadsNeeded_half (story : option Story) :
  MainPage.spreadsNeeded story = (MainPage.panelCount story + 3) / 2.
Proof.
  unfold MainPage.spreadsNeeded. rewrite Math_ceil_div_2. f_equal. lia.
Qed.

Lemma spreadsNeeded_ge_2 (story : option Story) : 2 <= MainPage.spreadsNeeded story.
Proof.
  rewrite spreadsNeeded_half. pose proof (panelCount_pos story).
  Z.div_mod_to_equations. lia.
Qed.

(** ** The book container, state by state *)

Section Book.
Import MainPage Spec.

Lemma book_front (T : Z) : 2 <= T -> book T 0 = [FrontCover].
Proof.
  intros HT. unfold book.
  destruct (Z.eqb_spec 0 (T - 1)); [lia | reflexivity].
Qed.

Lemma book_back (T : Z) : 2 <= T -> book T (T - 1) = [BackCover].
Proof.
  intros HT. unfold book.
  destruct (Z.eqb_spec (T - 1) 0); [lia|].
  rewrite Z.ltb_irrefl, andb_false_r, Z.eqb_refl. reflexivity.
Qed.

Lemma book_spread (T i : Z) :
  0 < i < T - 1 -> book T i = [Spread (leftPage i) (rightPage T i)].
Proof.
  intros Hi. unfold book.
  destruct (Z.eqb_spec i 0); [lia|].
  destruct (Z.eqb_spec i (T - 1)); [lia|].
  destruct (Z.ltb_spec 0 i); [|lia].
  destruct (Z.ltb_spec i (T - 1)); [|lia].
  reflexivity.
Qed.

Lemma panelRun_S (a len : nat) :
  panelRun a (S len) = PanelSlot (Z.of_nat a) :: panelRun (S a) len.
Proof. reflexivity. Qed.

Lemma panelRun_snoc (a len : nat) :
  panelRun a (S len) = panelRun a len ++ [PanelSlot (Z.of_nat (a + len))].
Proof. unfold panelRun. rewrite seq_S, !map_app. reflexivity. Qed.

(** Inner spreads (neither the first nor the last) show two panels each. *)
Lemma inner_spreads (T : Z) (k b : nat) :
  Z.of_nat (b + 2 + k) <= T - 2 ->
  flat_map (fun i => flat_map slotsOf (book T i)) (map Z.of_nat (seq (b + 2) k))
  = panelRun (2 * b + 1) (2 * k).
Proof.
  revert b. induction k as [|k IH]; intros b Hb; [reflexivity|].
  replace (2 * S k)%nat with (S (S (2 * k))) by lia.
  rewrite !panelRun_S. cbn [seq map flat_map].
  rewrite book_spread by lia. cbn [flat_map slotsOf app].
  unfold leftPage, rightPage.
  destruct (Z.eqb_spec (Z.of_nat (b + 2)) 1); [lia|].
  destruct (Z.eqb_spec (Z.of_nat (b + 2)) (T - 2)); [lia|].
  f_equal; [f_equal; lia|]. f_equal; [f_equal; lia|].
  replace (S (b + 2)) with (S b + 2)%nat by lia.
  rewrite IH by lia. f_equal. lia.
Qed.

(** With [s + 2] spreads the book reads: foreword, panels
    [0 .. 2s+1], closing page. *)
Lemma readingOrder_closed (s : nat) :
  readingOrder (Z.of_nat s + 4) = Foreword :: panelRun 0 (2 * s + 2) ++ [Closing].
Proof.
  assert (seq_head : forall a n, seq a (S n) = a :: seq (S a) n) by reflexivity.
  set (T := Z.of_nat s + 4).
  unfold readingOrder, states.
  replace (Z.to_nat T) with (S (S (S (S s)))) by lia.
  rewrite seq_S, (seq_head 0%nat), (seq_head 1%nat), (seq_S s 2).
  rewrite !map_app, !flat_map_app. cbn [map flat_map].
  change (Z.of_nat 0) with 0.
  rewrite book_front by lia.
  replace (Z.of_nat (0 + S (S (S s)))) with (T - 1) by lia.
  rewrite book_back by lia.
  rewrite !(book_spread T) by lia.
  rewrite map_app, flat_map_app. cbn [map flat_map].
  rewrite !(book_spread T) by lia.
  change (seq 2 s) with (seq (0 + 2) s).
  rewrite (inner_spreads T s 0) by lia.
  cbn [flat_map slotsOf app].
  unfold leftPage, rightPage.
  destruct (Z.eqb_spec (Z.of_nat 1) 1); [|lia].
  destruct (Z.eqb_spec (Z.of_nat 1) (T - 2)); [lia|].
  destruct (Z.eqb_spec (Z.of_nat (2 + s)) 1); [lia|].
  destruct (Z.eqb_spec (Z.of_nat (2 + s)) (T - 2)); [|lia].
  f_equal.
  replace (2 * s + 2)%nat with (S (S (2 * s))) by lia.
  rewrite app_nil_r, panelRun_S, panelRun_snoc.
  cbn [app]. rewrite <- app_assoc. cbn [app].
  change (2 * 0 + 1)%nat with 1%nat.
  do 4 f_equal. lia.
Qed.

End Book.

(** ** Counting in the reading sequence *)

Section Counting.
Import MainPage Spec.

Lemma count_panelRun_other (a len : nat) (s : Slot) :
  (forall k, s <> PanelSlot k) -> count_occ Slot_eq_dec (panelRun a len) s = 0%nat.
Proof.
  intros Hs. apply count_occ_not_In. unfold panelRun.
  intros Hin. apply in_map_iff in Hin. destruct Hin as [k [Hk _]].
  symmetry in Hk. exact (Hs k Hk).
Qed.

Lemma In_panelRun (a len : nat) (idx : Z) :
  In (PanelSlot idx) (panelRun a len) <-> Z.of_nat a <= idx < Z.of_nat (a + len).
Proof.
  unfold panelRun. rewrite in_map_iff. split.
  - intros [z [Hz Hin]]. inversion Hz; subst z. apply in_map_iff in Hin.
    destruct Hin as [j [Hj Hin]]. apply in_seq in Hin. lia.
  - intros H. exists idx. split; [reflexivity|]. apply in_map_iff.
    exists (Z.to_nat idx). split; [lia|]. apply in_seq. lia.
Qed.

Lemma count_panelRun (a len : nat) (k : Z) :
  Z.of_nat a <= k < Z.of_nat (a + len) ->
  count_occ Slot_eq_dec (panelRun a len) (PanelSlot k) = 1%nat.
Proof.
  revert a. induction len as [|len IH]; intros a Hk; [lia|].
  rewrite panelRun_S. cbn [count_occ].
  destruct (Slot_eq_dec (PanelSlot (Z.of_nat a)) (PanelSlot k)) as [E|NE].
  - f_equal. apply count_occ_not_In. rewrite In_panelRun.
    inversion E. lia.
  - apply IH. assert (Z.of_nat a <> k) by congruence. lia.
Qed.

Lemma nth_panelRun (a len j : nat) :
  (j < len)%nat ->
  nth_error (panelRun a len) j = Some (PanelSlot (Z.of_nat (a + j))).
Proof.
  intros Hj. unfold panelRun.
  rewrite !nth_error_map.
  rewrite (nth_error_nth' _ 0%nat) by (rewrite length_seq; exact Hj).
  rewrite seq_nth by exact Hj. reflexivity.
Qed.

Lemma bookShape_foreword (m : nat) : shown_once (bookShape m) Foreword.
Proof.
  unfold shown_once, bookShape. cbn [count_occ].
  destruct (Slot_eq_dec Foreword Foreword); [|congruence].
  rewrite count_occ_app, count_panelRun_other by discriminate. reflexivity.
Qed.

Lemma bookShape_closing (m : nat) : shown_once (bookShape m) Closing.
Proof.
  unfold shown_once, bookShape. cbn [count_occ].
  destruct (Slot_eq_dec Foreword Closing); [discriminate|].
  rewrite count_occ_app, count_panelRun_other by discriminate. reflexivity.
Qed.

Lemma bookShape_panel (m : nat) (k : Z) :
  0 <= k < Z.of_nat m -> shown_once (bookShape m) (PanelSlot k).
Proof.
  intros Hk. unfold shown_once, bookShape. cbn [count_occ].
  destruct (Slot_eq_dec Foreword (PanelSlot k)); [discriminate|].
  rewrite count_occ_app, count_panelRun by lia. reflexivity.
Qed.

Lemma bookShape_nth (m : nat) (k : Z) :
  0 <= k < Z.of_nat m ->
  nth_error (bookShape m) (S (Z.to_nat k)) = Some (PanelSlot k).
Proof.
  intros Hk. unfold bookShape. cbn [nth_error].
  rewrite nth_error_app1 by (unfold panelRun; rewrite !length_map, length_seq; lia).
  rewrite nth_panelRun by lia. do 2 f_equal. lia.
Qed.

Lemma bookShape_precedes (m : nat) (k : Z) :
  0 <= k -> k + 1 < Z.of_nat m ->
  precedes (bookShape m) (PanelSlot k) (PanelSlot (k + 1)).
Proof.
  intros H0 H1. exists (S (Z.to_nat k)), (S (Z.to_nat (k + 1))).
  split; [lia|]. split; apply bookShape_nth; lia.
Qed.

Lemma bookShape_in_range (m : nat) : slots_in_range (Z.of_nat m) (bookShape m).
Proof.
  intros idx [H|H]; [discriminate|].
  apply in_app_or in H. destruct H as [H|[H|[]]]; [|discriminate].
  apply In_panelRun in H. lia.
Qed.

(** The reading sequence of any store content has the book shape; the
    number of panel slots is twice the number of spreads minus two. *)
Lemma readingOrder_story (story : option Story) :
  exists m : nat,
    readingOrder (totalStates story) = bookShape m /\
    Z.of_nat m = 2 * spreadsNeeded story - 2.
Proof.
  pose proof (spreadsNeeded_ge_2 story) as HS.
  exists (2 * Z.to_nat (spreadsNeeded story - 2) + 2)%nat. split; [|lia].
  unfold totalStates.
  replace (2 + spreadsNeeded story)
    with (Z.of_nat (Z.to_nat (spreadsNeeded story - 2)) + 4) by lia.
  apply readingOrder_closed.
Qed.

End Counting.

(** ** Pagination engine *)

Section Pagination.
Import MainPage Spec.

Lemma panel_slots_cover (story : Story) (m : nat) :
  Z.of_nat m = 2 * spreadsNeeded (Some story) - 2 ->
  JS.length (panels story) <= Z.of_nat m /\
  (0 < JS.length (panels story) -> Z.even (JS.length (panels story)) = true ->
   Z.of_nat m = JS.length (panels story)).
Proof.
  intros Hm. rewrite spreadsNeeded_half, panelCount_displayed in Hm.
  destruct (Z.eqb_spec (JS.length (panels story)) 0) as [E|NE].
  - rewrite E. split; [|lia]. change ((10 + 3) / 2) with 6 in Hm. lia.
  - split.
    + Z.div_mod_to_equations. lia.
    + intros _ Hev. apply Z.even_spec in Hev. destruct Hev as [h Hh].
      rewrite Hh in Hm |- *.
      replace (2 * h + 3) with (1 + (h + 1) * 2) in Hm by lia.
      rewrite Z.div_add in Hm by lia. change (1 / 2) with 0 in Hm. lia.
Qed.

(** The layout of the book.  For every story with [n >= 0] panels the
    states lay out the foreword once, the closing page once and every
    panel index of [0, n-1] once, panel [k] before panel [k+1]; in
    spread [i] the left slot is the foreword when [i = 1] and panel
    [(i-1)*2 - 1] otherwise, the right slot is the closing page when
    [i = T-2] and panel [(i-1)*2] otherwise; and when [n] is positive
    and even no slot asks for a panel outside [0, n-1]. *)
Lemma pagination_reading_order (story : Story) :
  let n := JS.length (panels story) in
  let T := totalStates (Some story) in
  let shown := readingOrder T in
  shown_once shown Foreword /\
  shown_once shown Closing /\
  (forall k, 0 <= k < n ->
     shown_once shown (PanelSlot k) /\
     exists p, slotPanel story (PanelSlot k) = Some p) /\
  (forall k, 0 <= k -> k + 1 < n ->
     precedes shown (PanelSlot k) (PanelSlot (k + 1))) /\
  (forall i, 0 < i < T - 1 ->
     book T i =
     [Spread (if i =? 1 then Foreword else PanelSlot ((i - 1) * 2 - 1))
             (if i =? T - 2 then Closing else PanelSlot ((i - 1) * 2))]) /\
  (forall k, 0 <= k < n ->
     exists i, 0 < i < T - 1 /\
               (if Z.even k then rightPage T i else leftPage i) = PanelSlot k) /\
  (0 < n -> Z.even n = true -> slots_in_range n shown).
Proof.
  intros n T shown. subst shown T.
  destruct (readingOrder_story (Some story)) as [m [Hshape Hm]].
  destruct (panel_slots_cover story m Hm) as [Hle Heven]. fold n in Hle, Heven.
  rewrite Hshape. split; [|split; [|split; [|split; [|split; [|split]]]]].
  - apply bookShape_foreword.
  - apply bookShape_closing.
  - intros k Hk. split; [apply bookShape_panel; lia|].
    unfold slotPanel, JS.index. destruct (Z.ltb_spec k 0); [lia|].
    destruct (nth_error (panels story) (Z.to_nat k)) eqn:E; [eauto|].
    apply nth_error_None in E. unfold n, JS.length in Hk. lia.
  - intros k H0 H1. apply bookShape_precedes; lia.
  - intros i Hi. rewrite book_spread by exact Hi. reflexivity.
  - intros k Hk. unfold totalStates. rewrite Hm in Hle.
    remember (spreadsNeeded (Some story)) as S eqn:HS. clear HS.
    destruct (Z.even k) eqn:Ek.
    + apply Z.even_spec in Ek. destruct Ek as [h Hh].
      exists (h + 1). split; [lia|]. unfold rightPage.
      destruct (Z.eqb_spec (h + 1) (2 + S - 2)); [lia|]. f_equal. lia.
    + assert (Ho : Z.odd k = true) by (rewrite <- Z.negb_even, Ek; reflexivity).
      apply Z.odd_spec in Ho. destruct Ho as [h Hh].
      exists (h + 2). split; [lia|]. unfold leftPage.
      destruct (Z.eqb_spec (h + 2) 1); [lia|]. f_equal. lia.
  - intros Hpos Hev. rewrite <- (Heven Hpos Hev). apply bookShape_in_range.
Qed.

(** Two stories for which a slot asks for a panel that does not
    exist: with no panels the ten default slots [0..9] are laid out,
    and with eleven panels the left slot of the last spread asks for
    [story.panels[11]]. *)
Lemma pagination_slots_out_of_range :
  (let story := sampleStory 0 in
   let shown := readingOrder (totalStates (Some story)) in
   JS.length (panels story) = 0 /\
   In (PanelSlot 0) shown /\
   slotPanel story (PanelSlot 0) = None /\
   ~ slots_in_range (JS.length (panels story)) shown) /\
  (let story := sampleStory 11 in
   let shown := readingOrder (totalStates (Some story)) in
   JS.length (panels story) = 11 /\
   In (PanelSlot 11) shown /\
   slotPanel story (PanelSlot 11) = None /\
   ~ slots_in_range (JS.length (panels story)) shown).
Proof.
  cbv zeta.
  assert (Hin0 : In (PanelSlot 0)
                    (readingOrder (totalStates (Some (sampleStory 0))))).
  { vm_compute. right. left. reflexivity. }
  assert (Hin11 : In (PanelSlot 11)
                     (readingOrder (totalStates (Some (sampleStory 11))))).
  { vm_compute. do 12 right. left. reflexivity. }
  split; (split; [reflexivity|]); (split; [assumption|]); (split; [reflexivity|]).
  - intros H. specialize (H 0 Hin0). vm_compute in H. destruct H as [_ H].
    discriminate H.
  - intros H. specialize (H 11 Hin11). vm_compute in H. destruct H as [_ H].
    discriminate H.
Qed.

(** C1.  A story with eleven panels, paged from state 0 to state
    T-1 = 8: the last spread, state 7, has the closing page on the right
    and asks for [story.panels[11]] on the left, an index outside
    [0, 10]; that panel does not exist, rendering the state throws, and
    neither the closing page nor the back cover is ever shown.  The
    states before it render, showing the foreword and the panels 0..10
    once each, in order. *)
Theorem odd_panel_count_breaks_last_spread :
  let story := sampleStory 11 in
  let T := totalStates (Some story) in
  JS.length (panels story) = 11 /\
  T = 9 /\
  book T 7 = [Spread (PanelSlot 11) Closing] /\
  slotPanel story (PanelSlot 11) = None /\
  BookView.paging STORYBOARD (Some story) =
  [Ok [FrontCover];
   Ok [Spread Foreword (PanelSlot 0)];
   Ok [Spread (PanelSlot 1) (PanelSlot 2)];
   Ok [Spread (PanelSlot 3) (PanelSlot 4)];
   Ok [Spread (PanelSlot 5) (PanelSlot 6)];
   Ok [Spread (PanelSlot 7) (PanelSlot 8)];
   Ok [Spread (PanelSlot 9) (PanelSlot 10)];
   Throw (ErrorObj "Cannot read properties of undefined (reading 'imageUrl')")].
Proof.
  cbv zeta. repeat split.
Qed.

(** C2 (amended).  For every displayed story with [n >= 1] panels,
    [spreadsNeeded] is the ceiling of [(n + 2) / 2], the number of
    states is [2 + spreadsNeeded], state 0 is the front cover and
    state [T-1] the back cover. *)
Theorem page_states_formula (story : Story) :
  let n := JS.length (panels story) in
  let T := totalStates (Some story) in
  1 <= n ->
  is_ceil_half (n + 2) (spreadsNeeded (Some story)) /\
  T = 2 + spreadsNeeded (Some story) /\
  book T 0 = [FrontCover] /\
  book T (T - 1) = [BackCover].
Proof.
  intros n T Hn. subst T.
  pose proof (spreadsNeeded_ge_2 (Some story)) as HS.
  split; [|split; [reflexivity|split]].
  - unfold is_ceil_half. rewrite spreadsNeeded_half, panelCount_displayed.
    fold n. destruct (Z.eqb_spec n 0); [lia|].
    Z.div_mod_to_equations. lia.
  - apply book_front. unfold totalStates. lia.
  - apply book_back. unfold totalStates. lia.
Qed.

Lemma page_states_formula_witness :
  is_ceil_half (10 + 2) (spreadsNeeded (Some (sampleStory 10))) /\
  totalStates (Some (sampleStory 10)) = 2 + spreadsNeeded (Some (sampleStory 10)) /\
  book (totalStates (Some (sampleStory 10))) 0 = [FrontCover] /\
  book (totalStates (Some (sampleStory 10)))
       (totalStates (Some (sampleStory 10)) - 1) = [BackCover].
Proof.
  apply (page_states_formula (sampleStory 10)). vm_compute. discriminate.
Defined.

(** A displayed story without panels gets six spreads, not the one
    spread that [ceil((0 + 2) / 2)] would give. *)
Lemma page_states_empty_story :
  let story := sampleStory 0 in
  JS.length (panels story) = 0 /\
  spreadsNeeded (Some story) = 6 /\
  ~ is_ceil_half (JS.length (panels story) + 2) (spreadsNeeded (Some story)).
Proof.
  cbv zeta. repeat split. vm_compute. intros [_ H]. discriminate H.
Qed.

(** C3 (amended).  With ten panels there are six spreads and eight
    states: state 0 is the front cover, state 7 the back cover, states
    1..6 are spreads; state 1 shows the foreword on the left and
    panel[0] on the right, state 6 shows panel[9] on the left and the
    closing page on the right. *)
Theorem ten_panel_book (story : Story) :
  JS.length (panels story) = 10 ->
  let T := totalStates (Some story) in
  spreadsNeeded (Some story) = 6 /\
  T = 8 /\
  book T 0 = [FrontCover] /\
  book T 7 = [BackCover] /\
  (forall i, 1 <= i <= 6 -> book T i = [Spread (leftPage i) (rightPage T i)]) /\
  book T 1 = [Spread Foreword (PanelSlot 0)] /\
  book T 6 = [Spread (PanelSlot 9) Closing] /\
  slotPanel story (PanelSlot 0) = nth_error (panels story) 0 /\
  slotPanel story (PanelSlot 9) = nth_error (panels story) 9.
Proof.
  intros Hn T.
  assert (HS : spreadsNeeded (Some story) = 6).
  { rewrite spreadsNeeded_half, panelCount_displayed, Hn. reflexivity. }
  assert (HT : T = 8) by (unfold T, totalStates; rewrite HS; reflexivity).
  rewrite HT. repeat split; try reflexivity; try exact HS.
  intros i Hi. apply book_spread. lia.
Qed.

Lemma ten_panel_book_witness :
  book (totalStates (Some (sampleStory 10))) 6 = [Spread (PanelSlot 9) Closing].
Proof.
  apply (ten_panel_book (sampleStory 10)). reflexivity.
Defined.

(** With ten panels the left slot of state 6 is not panel[8]. *)
Lemma ten_panel_book_state6_left :
  let story := sampleStory 10 in
  JS.length (panels story) = 10 /\
  forall r, book (totalStates (Some story)) 6 <> [Spread (PanelSlot 8) r].
Proof.
  cbv zeta. split; [reflexivity|]. intros r H. vm_compute in H. discriminate H.
Qed.

(** C10.  With no story in the store, or a story whose panel list is
    empty, the layout is derived from a panel count of 10: there are 8
    states, where the documented formula gives 3 for [n = 0]. *)
Theorem default_panel_count :
  panelCount None = 10 /\
  totalStates None = 8 /\
  (forall t f c p u,
     panelCount (Some (mkStory t f c p u [])) = 10 /\
     totalStates (Some (mkStory t f c p u [])) = 8) /\
  documented_totalStates 0 = 3.
Proof.
  repeat split.
Qed.

End Pagination.

(** ** Normalisation of a persisted story *)

Section Normalisation.
Import StoryGenerator Spec.

Lemma or_str_empty (o : option string) : JS.or_str o "" = or_empty o.
Proof. destruct o as [[|c x]|]; reflexivity. Qed.

Lemma or_undefined_null : JS.or_undefined None = None.
Proof. reflexivity. Qed.

Lemma or_undefined_value (u : string) :
  u <> "" -> JS.or_undefined (Some u) = Some u.
Proof. destruct u; [congruence | reflexivity]. Qed.

(** C7 (amended).  Normalising a story-detail response turns a null
    title, foreword, character description, cover prompt or panel
    prompt into the empty string and keeps every non-null one; a
    null cover image or panel image reference becomes absent and a
    non-empty one is kept; every panel gets [isGenerating = false];
    the panels keep their number, order, ids and text. *)
Theorem mapApiStory_normalises (data : StoryDetailResponse.t) :
  let s := mapApiStory data in
  title s = or_empty (StoryDetailResponse.title data) /\
  foreword s = or_empty (StoryDetailResponse.foreword data) /\
  characterDescription s = or_empty (StoryDetailResponse.character_description data) /\
  coverImagePrompt s = or_empty (StoryDetailResponse.cover_image_prompt data) /\
  (StoryDetailResponse.cover_image_url data = None -> coverImageUrl s = None) /\
  (forall u, u <> "" -> StoryDetailResponse.cover_image_url data = Some u ->
             coverImageUrl s = Some u) /\
  List.length (panels s) = List.length (StoryDetailResponse.panels data) /\
  map text (panels s) = map PanelResponse.text (StoryDetailResponse.panels data) /\
  map id (panels s) =
    map (fun p => JS.String_of_num (PanelResponse.id p)) (StoryDetailResponse.panels data) /\
  map imagePrompt (panels s) =
    map (fun p => or_empty (PanelResponse.image_prompt p)) (StoryDetailResponse.panels data) /\
  Forall (fun q => isGenerating q = Some false) (panels s) /\
  (forall i p q, nth_error (StoryDetailResponse.panels data) i = Some p ->
                 nth_error (panels s) i = Some q ->
                 (PanelResponse.image_url p = None -> imageUrl q = None) /\
                 (forall u, u <> "" -> PanelResponse.image_url p = Some u ->
                            imageUrl q = Some u)).
Proof.
  cbv zeta. unfold mapApiStory. cbn [title foreword characterDescription
    coverImagePrompt coverImageUrl panels].
  rewrite !or_str_empty.
  repeat match goal with |- _ /\ _ => split end; try reflexivity.
  - intros H. rewrite H. reflexivity.
  - intros u Hu H. rewrite H. apply or_undefined_value, Hu.
  - apply length_map.
  - rewrite map_map. reflexivity.
  - rewrite map_map. reflexivity.
  - rewrite map_map. apply map_ext. intros p. apply or_str_empty.
  - apply Forall_forall. intros q Hq. apply in_map_iff in Hq.
    destruct Hq as [p [<- _]]. reflexivity.
  - intros i p q Hp Hq. rewrite nth_error_map, Hp in Hq.
    inversion Hq; subst q. unfold mapApiPanel. cbn [imageUrl]. split.
    + intros H. rewrite H. reflexivity.
    + intros u Hu H. rewrite H. apply or_undefined_value, Hu.
Qed.

Lemma mapApiStory_normalises_witness :
  coverImageUrl (mapApiStory sampleResponse) = None /\
  (forall q, nth_error (panels (mapApiStory sampleResponse)) 1 = Some q ->
             imageUrl q = Some "42.png").
Proof.
  split.
  - apply (mapApiStory_normalises sampleResponse). reflexivity.
  - intros q Hq.
    apply (mapApiStory_normalises sampleResponse) with
      (i := 1%nat) (p := PanelResponse.mk 42 1 "second" (Some "a castle") (Some "42.png"));
      [reflexivity | exact Hq | discriminate | reflexivity].
Defined.

(** A null cover image reference and a null panel image reference do
    not become empty strings: the fields are absent afterwards. *)
Lemma mapApiStory_null_image_absent :
  StoryDetailResponse.cover_image_url sampleResponse = None /\
  coverImageUrl (mapApiStory sampleResponse) = None /\
  coverImageUrl (mapApiStory sampleResponse) <> Some "" /\
  option_map PanelResponse.image_url
             (nth_error (StoryDetailResponse.panels sampleResponse) 0) = Some None /\
  option_map imageUrl (nth_error (panels (mapApiStory sampleResponse)) 0) = Some None /\
  option_map imageUrl (nth_error (panels (mapApiStory sampleResponse)) 0) <> Some (Some "").
Proof.
  repeat split; discriminate.
Qed.

End Normalisation.

(** ** The story store under panel updates *)

Ltac js_unfold :=
  cbv [StoryGenerator.updatePanel Closure.updatePanelOf StoryGenerator.generateStory
       BackendApi.updatePanelImage BackendApi.generateAndSaveStory
       BackendApi.editPanelImage BackendApi.urlToBase64 BackendApi.apiFetch
       fetch bind ret throw try_catch finally await detached get
       setStory setSavedStoryId setView setProfile setIsEditing
       setEditPrompt setIsProcessing toast_error console_log console_error
       emit Spec.stored].

Ltac js_step :=
  cbn [fst snd story savedStoryId view profile currentPage isEditing
       editPrompt isProcessing trace negb andb orb].

Ltac js_world w :=
  destruct w as [?w_story ?w_saved ?w_view ?w_profile ?w_page
                 ?w_editing ?w_prompt ?w_processing ?w_trace];
  js_step; cbn [story savedStoryId view profile currentPage isEditing
                editPrompt isProcessing trace] in *; subst.

Section PanelUpdate.
Import StoryGenerator Spec.
Variable API_BASE_URL : string.
Variable server : BackendApi.Server.

Lemma updatePanel_persist (updated : ComicPanelData) (w : World)
      (st : Story) (sid : Z) (img : string) :
  story w = Some st ->
  savedStoryId w = Some sid ->
  imageUrl updated = Some img ->
  JS.truthy_num sid = true ->
  JS.truthy_str img = true ->
  JS.findIndex (fun p => String.eqb (id p) (id updated)) (panels st) <> -1 ->
  let k := JS.findIndex (fun p => String.eqb (id p) (id updated)) (panels st) in
  let st' := withPanels st (replacePanel updated (panels st)) in
  exists report,
    is_console report = true /\
    updatePanel API_BASE_URL server updated w =
    (Ok tt,
     stored w (Some st')
       [SetStory (Some st');
        Fetch (mkRequest PATCH
                 (BackendApi.API_BASE API_BASE_URL ++ "/stories/"
                    ++ JS.String_of_num sid ++ "/panels/" ++ JS.String_of_num k)%string
                 (PanelImageBody img));
        report]).
Proof.
  intros Hst Hsid Himg Ht1 Ht2 Hk k st'.
  js_world w. js_unfold. js_step. rewrite Himg.
  unfold JS.truthy_onum, JS.truthy_ostr. rewrite Ht1, Ht2.
  fold k. destruct (Z.eqb_spec k (-1)) as [E|_]; [contradiction|].
  js_step.
  destruct (BackendApi.on_panel_patch server _ _) as [r|e];
    [destruct (ok r)|]; js_step;
    (eexists; split; [|rewrite <- !app_assoc; reflexivity]); reflexivity.
Qed.

(** Whatever the back end answers, [updatePanel] returns normally and
    leaves in the store the story with the matching panels replaced. *)
Lemma updatePanel_store (updated : ComicPanelData) (w : World) (st : Story) :
  story w = Some st ->
  let w' := snd (updatePanel API_BASE_URL server updated w) in
  fst (updatePanel API_BASE_URL server updated w) = Ok tt /\
  story w' = Some (withPanels st (replacePanel updated (panels st))) /\
  savedStoryId w' = savedStoryId w.
Proof.
  intros Hst. js_world w. js_unfold. js_step.
  destruct (JS.truthy_onum w_saved && _ && _); [|repeat split].
  destruct w_saved as [sid|]; [|repeat split].
  destruct (imageUrl updated) as [img|]; [|repeat split].
  destruct (BackendApi.on_panel_patch server _ _) as [r|e];
    [destruct (ok r)|]; js_step; repeat split.
Qed.

Lemma replacePanel_length (updated : ComicPanelData) (ps : list ComicPanelData) :
  List.length (replacePanel updated ps) = List.length ps.
Proof. apply length_map. Qed.

Lemma replacePanel_ids (updated : ComicPanelData) (ps : list ComicPanelData) :
  map id (replacePanel updated ps) = map id ps.
Proof.
  unfold replacePanel. rewrite map_map. apply map_ext. intros p.
  destruct (String.eqb_spec (id p) (id updated)) as [E|_]; congruence.
Qed.

Lemma replacePanel_nth (updated : ComicPanelData) (ps : list ComicPanelData)
      (i : nat) (p : ComicPanelData) :
  nth_error ps i = Some p ->
  (id p <> id updated -> nth_error (replacePanel updated ps) i = Some p) /\
  (id p = id updated -> nth_error (replacePanel updated ps) i = Some updated).
Proof.
  intros Hp. unfold replacePanel. rewrite nth_error_map, Hp. cbn.
  destruct (String.eqb_spec (id p) (id updated)); split; congruence.
Qed.

(** [findIndex] returns the first position whose element satisfies
    the predicate, or [-1] when there is none. *)
Lemma findIndex_from_spec {A} (pred : A -> bool) (l : list A) (i : Z) :
  0 <= i ->
  let k := JS.findIndex_from pred l i in
  (k = -1 /\ Forall (fun x => pred x = false) l) \/
  (i <= k < i + Z.of_nat (List.length l) /\
   exists x, nth_error l (Z.to_nat (k - i)) = Some x /\ pred x = true /\
             forall j y, (j < Z.to_nat (k - i))%nat -> nth_error l j = Some y ->
                         pred y = false).
Proof.
  revert i. induction l as [|x l IH]; intros i Hi; cbn [JS.findIndex_from].
  - left. split; [reflexivity | constructor].
  - destruct (pred x) eqn:Px.
    + right. split; [cbn [List.length]; lia|].
      exists x. rewrite Z.sub_diag. cbn. repeat split; [exact Px|]. intros; lia.
    + destruct (IH (i + 1) ltac:(lia)) as [[Hk Hall]|[Hr [y [Hy [Py Hfirst]]]]].
      * left. split; [exact Hk | constructor; assumption].
      * right. split; [cbn [List.length]; lia|].
        exists y.
        replace (Z.to_nat (JS.findIndex_from pred l (i + 1) - i))
          with (S (Z.to_nat (JS.findIndex_from pred l (i + 1) - (i + 1)))) by lia.
        cbn [nth_error]. repeat split; [exact Hy | exact Py|].
        intros [|j] z Hj Hz; cbn [nth_error] in Hz.
        -- congruence.
        -- apply (Hfirst j z); [lia | exact Hz].
Qed.

Lemma findIndex_found {A} (pred : A -> bool) (l : list A) :
  JS.findIndex pred l <> -1 ->
  exists x, JS.index l (JS.findIndex pred l) = Some x /\ pred x = true /\
            forall j y, 0 <= j < JS.findIndex pred l -> JS.index l j = Some y ->
                        pred y = false.
Proof.
  intros Hk. unfold JS.findIndex in *.
  destruct (findIndex_from_spec pred l 0 ltac:(lia)) as [[Hn _]|[Hr [x [Hx [Px Hfirst]]]]];
    [contradiction|].
  exists x. rewrite Z.sub_0_r in Hx, Hfirst. unfold JS.index.
  destruct (Z.ltb_spec (JS.findIndex_from pred l 0) 0); [lia|].
  repeat split; [exact Hx | exact Px|].
  intros j y Hj Hy. destruct (Z.ltb_spec j 0); [lia|].
  apply (Hfirst (Z.to_nat j) y); [lia | exact Hy].
Qed.


(** For a call from the render that created the callback, the panel
    update replaces exactly the panels whose id matches the updated
    panel; the number of panels, the sequence of ids, every panel with
    another id and every non-panel field of the story stay as they
    were. *)
Lemma updatePanel_frame (updated : ComicPanelData) (w : World) (st : Story) :
  story w = Some st ->
  exists st',
    story (snd (updatePanel API_BASE_URL server updated w)) = Some st' /\
    List.length (panels st') = List.length (panels st) /\
    map id (panels st') = map id (panels st) /\
    (forall i p, nth_error (panels st) i = Some p ->
                 (id p <> id updated -> nth_error (panels st') i = Some p) /\
                 (id p = id updated -> nth_error (panels st') i = Some updated)) /\
    title st' = title st /\
    foreword st' = foreword st /\
    characterDescription st' = characterDescription st /\
    coverImagePrompt st' = coverImagePrompt st /\
    coverImageUrl st' = coverImageUrl st.
Proof.
  intros Hst.
  destruct (updatePanel_store updated w st Hst) as [_ [Hstory _]].
  exists (withPanels st (replacePanel updated (panels st))).
  split; [exact Hstory|]. cbn [withPanels panels title foreword
    characterDescription coverImagePrompt coverImageUrl].
  split; [apply replacePanel_length|].
  split; [apply replacePanel_ids|].
  split; [intros i p Hp; apply replacePanel_nth, Hp|].
  repeat split.
Qed.

(** *** The callback of an arbitrary render *)

(** Called from the render that created it, the callback is
    [updatePanel] on the current cells. *)
Lemma updatePanel_is_current_render (updated : ComicPanelData) (w : World) :
  updatePanel API_BASE_URL server updated w
  = Closure.updatePanelOf API_BASE_URL server (story w) (savedStoryId w) updated w.
Proof.
  js_world w. js_unfold. destruct w_story as [st|]; reflexivity.
Qed.

Lemma updatePanelOf_persist (captured : Story) (updated : ComicPanelData) (w : World)
      (sid : Z) (img : string) :
  imageUrl updated = Some img ->
  JS.truthy_num sid = true ->
  JS.truthy_str img = true ->
  JS.findIndex (fun p => String.eqb (id p) (id updated)) (panels captured) <> -1 ->
  let k := JS.findIndex (fun p => String.eqb (id p) (id updated)) (panels captured) in
  let st' := withPanels captured (replacePanel updated (panels captured)) in
  exists report,
    is_console report = true /\
    Closure.updatePanelOf API_BASE_URL server (Some captured) (Some sid) updated w =
    (Ok tt,
     stored w (Some st')
       [SetStory (Some st');
        Fetch (mkRequest PATCH
                 (BackendApi.API_BASE API_BASE_URL ++ "/stories/"
                    ++ JS.String_of_num sid ++ "/panels/" ++ JS.String_of_num k)%string
                 (PanelImageBody img));
        report]).
Proof.
  intros Himg Ht1 Ht2 Hk k st'.
  js_world w. js_unfold. js_step. rewrite Himg.
  unfold JS.truthy_onum, JS.truthy_ostr. rewrite Ht1, Ht2.
  fold k. destruct (Z.eqb_spec k (-1)) as [E|_]; [contradiction|].
  js_step.
  destruct (BackendApi.on_panel_patch server _ _) as [r|e];
    [destruct (ok r)|]; js_step;
    (eexists; split; [|rewrite <- !app_assoc; reflexivity]); reflexivity.
Qed.

(** Whatever the cells hold and whatever the back end answers, the
    callback returns normally and leaves in the store the story its
    render captured, with the matching panels replaced. *)
Lemma updatePanelOf_store (captured : Story) (saved : option Z)
      (updated : ComicPanelData) (w : World) :
  let run := Closure.updatePanelOf API_BASE_URL server (Some captured) saved updated w in
  fst run = Ok tt /\
  story (snd run) = Some (withPanels captured (replacePanel updated (panels captured))) /\
  savedStoryId (snd run) = savedStoryId w.
Proof.
  js_world w. js_unfold. js_step.
  destruct (JS.truthy_onum saved && _ && _); [|repeat split].
  destruct saved as [sid|]; [|repeat split].
  destruct (imageUrl updated) as [img|]; [|repeat split].
  destruct (BackendApi.on_panel_patch server _ _) as [r|e];
    [destruct (ok r)|]; js_step; repeat split.
Qed.

(** The callback is an async function whose promise never rejects:
    calling it without awaiting it, as [handleEdit] does, is calling
    it. *)
Lemma updatePanelOf_detached (captured : option Story) (saved : option Z)
      (updated : ComicPanelData) (w : World) :
  detached (Closure.updatePanelOf API_BASE_URL server captured saved updated) w
  = Closure.updatePanelOf API_BASE_URL server captured saved updated w.
Proof.
  destruct captured as [st|]; [|reflexivity].
  destruct (updatePanelOf_store st saved updated w) as [Hret _].
  unfold detached.
  destruct (Closure.updatePanelOf API_BASE_URL server (Some st) saved updated w) as [r w'].
  cbn [fst snd] in *. rewrite Hret. reflexivity.
Qed.

Lemma updatePanel_detached (updated : ComicPanelData) (w : World) :
  detached (updatePanel API_BASE_URL server updated) w
  = updatePanel API_BASE_URL server updated w.
Proof.
  rewrite updatePanel_is_current_render, <- updatePanelOf_detached.
  unfold detached. rewrite updatePanel_is_current_render. reflexivity.
Qed.

(** The identity lookup depends on the sequence of ids only. *)
Lemma findIndex_by_id (x : string) (ps qs : list ComicPanelData) :
  map id ps = map id qs ->
  JS.findIndex (fun p => String.eqb (id p) x) ps
  = JS.findIndex (fun p => String.eqb (id p) x) qs.
Proof.
  unfold JS.findIndex. generalize 0. revert qs.
  induction ps as [|p ps IH]; intros [|q qs] i Hids; try discriminate Hids;
    [reflexivity|].
  cbn [map] in Hids. injection Hids as Hid Hrest.
  cbn [JS.findIndex_from]. rewrite Hid.
  destruct (String.eqb (id q) x); [reflexivity | apply IH, Hrest].
Qed.

(** C5.  An edit delivered to [updatePanel] for a story saved under an
    id of the back end (a row id of its database, hence positive),
    with the panel's id present in the story the callback works on.
    The callback looks the panel's position up by id: the first
    position holding that id, which is the panel's position in every
    story with the same sequence of ids.  It writes the updated story
    to the store first and then issues exactly one
    [PATCH /stories/{id}/panels/{position}] request carrying the new
    image.  Whatever the answer to that request, the call returns
    normally, the store keeps the new image and only the console
    reports the outcome. *)
Theorem edit_persisted_by_position (panel : ComicPanelData) (image_base64 : string)
        (w : World) (captured : Story) (sid : Z) :
  let newImage := ("data:image/png;base64," ++ image_base64)%string in
  let updated := ComicPanel.withImage panel newImage in
  let k := JS.findIndex (fun p => String.eqb (id p) (id panel)) (panels captured) in
  0 < sid ->
  k <> -1 ->
  exists report st',
    is_console report = true /\
    Closure.updatePanelOf API_BASE_URL server (Some captured) (Some sid) updated w =
    (Ok tt,
     stored w (Some st')
       [SetStory (Some st');
        Fetch (mkRequest PATCH
                 (BackendApi.API_BASE API_BASE_URL ++ "/stories/"
                    ++ JS.String_of_num sid ++ "/panels/" ++ JS.String_of_num k)%string
                 (PanelImageBody newImage));
        report]) /\
    (exists p, JS.index (panels captured) k = Some p /\ id p = id panel /\
               forall j q, 0 <= j < k -> JS.index (panels captured) j = Some q ->
                           id q <> id panel) /\
    (forall current, map id (panels current) = map id (panels captured) ->
                     JS.findIndex (fun p => String.eqb (id p) (id panel)) (panels current) = k) /\
    JS.index (panels st') k = Some updated.
Proof.
  intros newImage updated k Hpos Hk.
  destruct (updatePanelOf_persist captured updated w sid newImage eq_refl)
    as [report [Hc Hrun]].
  - unfold JS.truthy_num. destruct (Z.eqb_spec sid 0); [lia | reflexivity].
  - reflexivity.
  - exact Hk.
  - exists report, (withPanels captured (replacePanel updated (panels captured))).
    split; [exact Hc|]. split; [exact Hrun|].
    destruct (findIndex_found _ (panels captured) Hk) as [p [Hp [Hid Hfirst]]].
    fold k in Hp, Hfirst. apply String.eqb_eq in Hid.
    split; [|split].
    + exists p. repeat split; [exact Hp | exact Hid|].
      intros j q Hj Hq. specialize (Hfirst j q Hj Hq).
      apply String.eqb_neq. exact Hfirst.
    + intros current Hids. apply findIndex_by_id, Hids.
    + cbn [withPanels panels]. unfold JS.index in *.
      destruct (k <? 0); [discriminate|].
      apply (replacePanel_nth updated) in Hp. apply Hp. exact Hid.
Qed.

(** C9.  The callback spreads the story its render captured, not the
    story in the store.  When one render's callback delivers two
    edits, to panels with different ids, the first write puts the
    first edited panel into the store, and the second write puts back
    the panel the render saw at that position: the content of a panel
    other than the one being updated is changed, the first edit is
    lost from the store. *)
Theorem stale_callback_reverts_other_panel (captured : Story) (saved : option Z)
        (u1 u2 : ComicPanelData) (w : World) (i : nat) (p : ComicPanelData) :
  let updatePanel := Closure.updatePanelOf API_BASE_URL server (Some captured) saved in
  let w1 := snd (updatePanel u1 w) in
  let w2 := snd (updatePanel u2 w1) in
  nth_error (panels captured) i = Some p ->
  id p = id u1 ->
  id u1 <> id u2 ->
  (exists s1, story w1 = Some s1 /\ nth_error (panels s1) i = Some u1) /\
  (exists s2, story w2 = Some s2 /\ nth_error (panels s2) i = Some p).
Proof.
  intros cb w1 w2 Hp Hid Hne.
  destruct (updatePanelOf_store captured saved u1 w) as [_ [H1 _]].
  destruct (updatePanelOf_store captured saved u2 w1) as [_ [H2 _]].
  split.
  - eexists. split; [exact H1|]. cbn [withPanels panels].
    apply (replacePanel_nth u1) in Hp. apply Hp. exact Hid.
  - eexists. split; [exact H2|]. cbn [withPanels panels].
    apply (replacePanel_nth u2) in Hp. apply Hp. congruence.
Qed.

End PanelUpdate.

Section PanelUpdateInstances.
Import StoryGenerator Spec.

Lemma updatePanel_frame_witness :
  exists st',
    story (snd (updatePanel "http://localhost:8000" acceptingServer
                  (ComicPanel.withImage (samplePanel 3) "data:image/png;base64,BBBB")
                  (readingWorld (Some 7)))) = Some st' /\
    List.length (panels st') = 10%nat.
Proof.
  destruct (updatePanel_frame "http://localhost:8000" acceptingServer
              (ComicPanel.withImage (samplePanel 3) "data:image/png;base64,BBBB")
              (readingWorld (Some 7)) (sampleStory 10) eq_refl)
    as [st' [H1 [H2 _]]].
  exists st'. split; [exact H1 | exact H2].
Defined.

Lemma edit_persisted_by_position_witness :
  requests (trace (snd (Closure.updatePanelOf "http://localhost:8000" unreachableServer
                          (Some (sampleStory 10)) (Some 7)
                          (ComicPanel.withImage (samplePanel 3)
                             ("data:image/png;base64," ++ "BBBB")%string)
                          (readingWorld (Some 7)))))
  = [mkRequest PATCH "http://localhost:8000/api/stories/7/panels/3"
               (PanelImageBody "data:image/png;base64,BBBB")].
Proof.
  destruct (edit_persisted_by_position "http://localhost:8000" unreachableServer
              (samplePanel 3) "BBBB" (readingWorld (Some 7)) (sampleStory 10) 7
              ltac:(lia) ltac:(vm_compute; discriminate))
    as [report [st' [Hc [Hrun _]]]].
  rewrite Hrun. cbn [snd stored trace readingWorld app requests flat_map].
  destruct report; try discriminate Hc; reflexivity.
Defined.

(** Two edits of the spread at page 3, delivered by the callback of the
    render that showed it: panel 3 is edited, then panel 4; afterwards
    panel 3 shows its old image again, although both edits were sent
    to the back end. *)
Lemma stale_callback_reverts_other_panel_witness :
  let w := readingWorld (Some 7) in
  let updatePanel :=
    Closure.updatePanelOf "http://localhost:8000" acceptingServer (story w) (savedStoryId w) in
  let u3 := ComicPanel.withImage (samplePanel 3) "data:image/png;base64,BBBB" in
  let u4 := ComicPanel.withImage (samplePanel 4) "data:image/png;base64,CCCC" in
  let w1 := snd (updatePanel u3 w) in
  let w2 := snd (updatePanel u4 w1) in
  (exists s1, story w1 = Some s1 /\ nth_error (panels s1) 3 = Some u3) /\
  (exists s2, story w2 = Some s2 /\ nth_error (panels s2) 3 = Some (samplePanel 3)) /\
  samplePanel 3 <> u3 /\
  requests (trace w2)
  = [mkRequest PATCH "http://localhost:8000/api/stories/7/panels/3"
               (PanelImageBody "data:image/png;base64,BBBB");
     mkRequest PATCH "http://localhost:8000/api/stories/7/panels/4"
               (PanelImageBody "data:image/png;base64,CCCC")].
Proof.
  cbv zeta.
  destruct (stale_callback_reverts_other_panel "http://localhost:8000" acceptingServer
              (sampleStory 10) (Some 7)
              (ComicPanel.withImage (samplePanel 3) "data:image/png;base64,BBBB")
              (ComicPanel.withImage (samplePanel 4) "data:image/png;base64,CCCC")
              (readingWorld (Some 7)) 3%nat (samplePanel 3)
              eq_refl eq_refl ltac:(vm_compute; discriminate)) as [H1 H2].
  split; [exact H1|]. split; [exact H2|].
  split; [discriminate | reflexivity].
Defined.

End PanelUpdateInstances.

(** ** Image resolution for an edit *)

Section EditResolution.
Import Spec.
Variable API_BASE_URL : string.
Variable server : BackendApi.Server.

(** C8.  A payload that starts neither with ['data:'] nor with
    ['http'] is resolved to itself, without any effect; resolving the
    result again gives the same payload. *)
Theorem pureBase64_bare_idempotent (imageSource : string) (w : World) :
  JS.startsWith imageSource "data:" = false ->
  JS.startsWith imageSource "http" = false ->
  BackendApi.pureBase64 server imageSource w = (Ok (Some imageSource), w) /\
  bind (BackendApi.pureBase64 server imageSource)
       (fun r => match r with
                 | Some payload => BackendApi.pureBase64 server payload
                 | None => ret None
                 end) w
  = (Ok (Some imageSource), w).
Proof.
  intros Hdata Hhttp.
  assert (H1 : BackendApi.pureBase64 server imageSource w
               = (Ok (Some imageSource), w)).
  { unfold BackendApi.pureBase64. rewrite Hdata, Hhttp. reflexivity. }
  split; [exact H1|]. unfold bind. rewrite H1. exact H1.
Qed.

(** The edit call only talks to the network: it appends requests to
    the trace and touches nothing else, and what it returns depends on
    the world only through the trace. *)
Lemma editPanelImage_network_only (src ep op cg : string) (style : option string)
      (w w2 : World) :
  trace w2 = trace w ->
  let m := BackendApi.editPanelImage API_BASE_URL server src ep op cg style in
  fst (m w2) = fst (m w) /\
  exists evs, forallb is_request evs = true /\
              snd (m w) = logged w evs /\ snd (m w2) = logged w2 evs.
Proof.
  intros Htr m. subst m. js_world w. js_world w2.
  unfold BackendApi.editPanelImage, BackendApi.pureBase64.
  destruct (JS.startsWith src "data:"); [|destruct (JS.startsWith src "http")];
    js_unfold; unfold logged; js_unfold; js_step;
    repeat match goal with
      | |- context [BackendApi.on_image_get server ?t ?r] =>
          destruct (BackendApi.on_image_get server t r); js_step
      | |- context [BackendApi.on_edit_image server ?t ?r] =>
          destruct (BackendApi.on_edit_image server t r) as [resp|]; js_step
      | |- context [negb (ok ?r)] => destruct (ok r); js_step
      | |- context [BackendApi.error_message ?r ?f] =>
          destruct (BackendApi.error_message r f); js_step
      | |- context [json ?r] => destruct (json r); js_step
      end;
    (split; [reflexivity|]);
    eexists; rewrite <- ?app_assoc; (split; [|split; reflexivity]); reflexivity.
Qed.


(** A successful edit call returns an inline-embedded image. *)
Lemma editPanelImage_result (src ep op cg : string) (style : option string)
      (w : World) (img : string) :
  fst (BackendApi.editPanelImage API_BASE_URL server src ep op cg style w) = Ok img ->
  exists image_base64, img = ("data:image/png;base64," ++ image_base64)%string.
Proof.
  js_world w. unfold BackendApi.editPanelImage, BackendApi.pureBase64.
  destruct (JS.startsWith src "data:"); [|destruct (JS.startsWith src "http")];
    js_unfold; js_step;
    repeat match goal with
      | |- context [BackendApi.on_image_get server ?t ?r] =>
          destruct (BackendApi.on_image_get server t r); js_step
      | |- context [BackendApi.on_edit_image server ?t ?r] =>
          destruct (BackendApi.on_edit_image server t r) as [resp|]; js_step
      | |- context [negb (ok ?r)] => destruct (ok r); js_step
      | |- context [BackendApi.error_message ?r ?f] =>
          destruct (BackendApi.error_message r f); js_step
      | |- context [json ?r] => destruct (json r) as [data|]; js_step
      end;
    intros H; try discriminate H; inversion H; eexists; reflexivity.
Qed.

End EditResolution.

Section EditResolutionInstances.
Import Spec.

Lemma pureBase64_bare_idempotent_witness :
  BackendApi.pureBase64 acceptingServer "iVBORw0KGgo" initialWorld
  = (Ok (Some "iVBORw0KGgo"), initialWorld).
Proof.
  apply (pureBase64_bare_idempotent acceptingServer "iVBORw0KGgo" initialWorld);
    reflexivity.
Defined.

End EditResolutionInstances.

(** ** The edit dialog *)

Section EditDialog.
Import Spec.
Variable API_BASE_URL : string.
Variable server : BackendApi.Server.
Variable panel : ComicPanelData.
Variable onUpdate : ComicPanelData -> M unit.
Variable charDesc : string.
Variable profile : option KidProfile.

Local Abbreviation handleEdit :=
  (ComicPanel.handleEdit API_BASE_URL server panel onUpdate charDesc profile).
Local Abbreviation editRequest :=
  (ComicPanel.editRequest API_BASE_URL server panel charDesc profile).

Lemma editRequest_network_only (ep : string) (w w2 : World) :
  trace w2 = trace w ->
  fst (editRequest ep w2) = fst (editRequest ep w) /\
  exists evs, forallb is_request evs = true /\
              snd (editRequest ep w) = logged w evs /\
              snd (editRequest ep w2) = logged w2 evs.
Proof.
  intros Htr. unfold ComicPanel.editRequest.
  destruct (ComicPanel.sourceUrl API_BASE_URL panel) as [src|].
  - apply editPanelImage_network_only. exact Htr.
  - js_world w. js_world w2. split; [reflexivity|].
    exists []. unfold logged. js_unfold. rewrite !app_nil_r. repeat split.
Qed.

(** C6.  An edit on a panel without image, or with an empty
    instruction, returns at once and changes nothing: no request is
    made.  If the edit call fails, the handler still returns normally,
    [onUpdate] is not invoked and the story store is as before; apart
    from the requests of the failed call there is one console error
    and one notification. *)
Theorem handleEdit_rejects_and_fails_safely (w : World) :
  (imageUrl panel = None \/ editPrompt w = "" -> handleEdit w = (Ok tt, w)) /\
  (forall e, fst (editRequest (editPrompt w) w) = Throw e ->
     fst (handleEdit w) = Ok tt /\
     story (snd (handleEdit w)) = story w /\
     savedStoryId (snd (handleEdit w)) = savedStoryId w /\
     (JS.truthy_ostr (imageUrl panel) = true -> editPrompt w <> "" ->
      exists evs,
        forallb is_request evs = true /\
        trace (snd (handleEdit w)) =
        trace w ++ evs ++ [ConsoleError None e;
                           ToastError "Oops! Magic failed. Try again."])).
Proof.
  split.
  - intros [Himg|Hprompt]; unfold ComicPanel.handleEdit, bind, get.
    + rewrite Himg. reflexivity.
    + rewrite Hprompt. rewrite orb_true_r. reflexivity.
  - intros e Hfail.
    unfold ComicPanel.handleEdit.
    cbv [bind get].
    destruct (negb (JS.truthy_ostr (imageUrl panel)) || negb (JS.truthy_str (editPrompt w)))
      eqn:Hguard.
    + cbv [ret]. cbn [fst snd]. repeat split.
      intros Hi Hp. rewrite Hi in Hguard. destruct (editPrompt w); [congruence|].
      discriminate Hguard.
    + cbv [setIsProcessing finally try_catch bind].
      set (w0 := mkWorld (story w) (savedStoryId w) (view w) (Runtime.profile w)
                         (currentPage w) (isEditing w) (editPrompt w) true (trace w)).
      destruct (editRequest_network_only (editPrompt w) w w0 eq_refl)
        as [Hfst [evs [Hreq [_ Hsnd]]]].
      destruct (editRequest (editPrompt w) w0) as [r w1] eqn:Hrun.
      cbn [fst snd] in Hfst, Hsnd. rewrite Hfail in Hfst. subst r w1.
      unfold logged. js_unfold. js_step. subst w0. js_step.
      repeat split. intros _ _. exists evs. split; [exact Hreq|].
      rewrite <- !app_assoc. reflexivity.
Qed.

End EditDialog.

Section EditDialogInstances.
Import Spec.

Lemma handleEdit_rejects_and_fails_safely_witness :
  story (snd (ComicPanel.handleEdit "http://localhost:8000" unreachableServer
                (samplePanel 3)
                (StoryGenerator.updatePanel "http://localhost:8000" unreachableServer)
                "a small hero" (Some sampleProfile) (readingWorld (Some 7))))
  = Some (sampleStory 10).
Proof.
  apply (handleEdit_rejects_and_fails_safely "http://localhost:8000" unreachableServer
           (samplePanel 3)
           (StoryGenerator.updatePanel "http://localhost:8000" unreachableServer)
           "a small hero" (Some sampleProfile) (readingWorld (Some 7)))
    with (e := ErrorObj "Failed to fetch").
  reflexivity.
Defined.

End EditDialogInstances.

(** ** Story generation *)

Section Generation.
Import Spec.
Variable API_BASE_URL : string.
Variable server : BackendApi.Server.

(** C4.  If the combined generate-and-save call rejects, the wizard
    handler leaves the story and the saved-story id of the store as
    they were and produces exactly one error notification; only when
    the call succeeds are the saved-story id and the normalised story
    written to the store. *)
Theorem generation_failure_is_atomic (p : KidProfile) (w : World) :
  let w' := snd (MainPage.handleWizardComplete API_BASE_URL server p w) in
  fst (MainPage.handleWizardComplete API_BASE_URL server p w) = Ok tt /\
  match fst (BackendApi.generateAndSaveStory API_BASE_URL server
               (StoryGenerator.profileForApi p) w) with
  | Throw e =>
      story w' = story w /\
      savedStoryId w' = savedStoryId w /\
      view w' = ONBOARDING /\
      exists req,
        trace w' = trace w ++
          [Fetch req;
           ToastError (match e with
                       | ErrorObj message => message
                       | NonError => "Generation failed"
                       end)]
  | Ok result =>
      let saved := GenerateAndSaveStoryResponse.story result in
      savedStoryId w' = Some (StoryDetailResponse.id saved) /\
      story w' = Some (StoryGenerator.mapApiStory saved) /\
      view w' = STORYBOARD /\
      exists req,
        trace w' = trace w ++
          [Fetch req;
           SetSavedStoryId (Some (StoryDetailResponse.id saved));
           SetStory (Some (StoryGenerator.mapApiStory saved))]
  end.
Proof.
  js_world w. unfold MainPage.handleWizardComplete. js_unfold. js_step.
  destruct (BackendApi.on_generate server _ _) as [resp|e]; js_step.
  - destruct (ok resp); js_step.
    + destruct (json resp) as [result|e]; js_step.
      * repeat split. eexists. rewrite <- !app_assoc. reflexivity.
      * repeat split. eexists. rewrite <- !app_assoc. reflexivity.
    + destruct (BackendApi.error_message resp _) as [message|e]; js_step;
        repeat split; eexists; rewrite <- !app_assoc; reflexivity.
  - repeat split. eexists. rewrite <- !app_assoc. reflexivity.
Qed.

End Generation.

(* ------------------------------------------------------------------ *)
(** * Further properties of the code *)

(** ** Paging *)

Section Paging.
Import MainPage Spec History.

(** X1.  [navigate] never leaves the book: whatever the direction and
    the page it starts from, the new page is a state of the book; a
    target inside the book is reached exactly; and stepping back from
    the front cover or forward from the back cover stays put. *)
Theorem navigate_stays_in_book (story : option Story) (dir p : Z) :
  let T := totalStates story in
  0 <= navigate story dir p <= T - 1 /\
  (0 <= p + dir <= T - 1 -> navigate story dir p = p + dir) /\
  navigate story (-1) 0 = 0 /\
  navigate story 1 (T - 1) = T - 1.
Proof.
  intros T. pose proof (spreadsNeeded_ge_2 story) as HS.
  assert (HT : T = 2 + spreadsNeeded story) by reflexivity.
  unfold navigate, JS.Math_max, JS.Math_min. fold T.
  repeat split; lia.
Qed.

Lemma navigate_stays_in_book_witness :
  navigate (Some (sampleStory 10)) 1 3 = 4.
Proof.
  apply (navigate_stays_in_book (Some (sampleStory 10)) 1 3). vm_compute.
  split; discriminate.
Defined.

Lemma renderSlot_present (story : Story) (idx : Z) :
  0 <= idx < JS.length (panels story) ->
  BookView.renderSlot story (PanelSlot idx) = Ok tt.
Proof.
  intros H. unfold BookView.renderSlot, JS.index, JS.length in *.
  destruct (Z.ltb_spec idx 0); [lia|].
  destruct (nth_error (panels story) (Z.to_nat idx)) eqn:E; [reflexivity|].
  apply nth_error_None in E. lia.
Qed.

Lemma renderSlot_missing (story : Story) (idx : Z) :
  JS.length (panels story) <= idx ->
  exists e, BookView.renderSlot story (PanelSlot idx) = Throw e.
Proof.
  intros H. unfold BookView.renderSlot, JS.index, JS.length in *.
  destruct (Z.ltb_spec idx 0); [eexists; reflexivity|].
  assert (E : nth_error (panels story) (Z.to_nat idx) = None)
    by (apply nth_error_None; lia).
  rewrite E. eexists. reflexivity.
Qed.

Lemma render_spread (story : Story) (i : Z) :
  let T := totalStates (Some story) in
  0 < i < T - 1 ->
  BookView.renderStoryboard STORYBOARD (Some story) i
  = match BookView.renderBlock story (Spread (leftPage i) (rightPage T i)) with
    | Ok b => Ok [b]
    | Throw e => Throw e
    end.
Proof.
  intros T Hi. unfold BookView.renderStoryboard. fold T.
  rewrite book_spread by exact Hi. reflexivity.
Qed.

(** X2.  In the storyboard view a story's book renders the front cover
    at page 0 and the back cover at page T-1, and the progress label
    names them.  With a positive even number of panels every page in
    between renders exactly one spread, labelled "Spread i".  With an
    odd number of panels every spread but the last renders and the last
    one throws, its left panel being undefined; with no panels every
    spread throws.  Outside [0, T-1], in another view, or without a
    story nothing is rendered. *)
Theorem book_shows_one_block (story : Story) (i : Z) :
  let n := JS.length (panels story) in
  let T := totalStates (Some story) in
  let run := BookView.renderStoryboard STORYBOARD (Some story) i in
  let spread := Spread (leftPage i) (rightPage T i) in
  (i = 0 -> run = Ok [FrontCover] /\ progressLabel T i = "Front Cover") /\
  (i = T - 1 -> run = Ok [BackCover] /\ progressLabel T i = "Back Cover") /\
  (0 < i < T - 1 -> 0 < n -> Z.even n = true ->
   run = Ok [spread] /\ progressLabel T i = ("Spread " ++ JS.String_of_num i)%string) /\
  (0 < i < T - 1 -> Z.odd n = true ->
   (i < T - 2 -> run = Ok [spread]) /\ (i = T - 2 -> exists e, run = Throw e)) /\
  (0 < i < T - 1 -> n = 0 -> exists e, run = Throw e) /\
  (i < 0 \/ T - 1 < i -> run = Ok []) /\
  (forall view, view <> STORYBOARD -> BookView.renderStoryboard view (Some story) i = Ok []) /\
  (forall view, BookView.renderStoryboard view None i = Ok []).
Proof.
  intros n T run spread.
  pose proof (spreadsNeeded_ge_2 (Some story)) as HS.
  assert (HT : T = 2 + spreadsNeeded (Some story)) by reflexivity.
  assert (Hhalf : spreadsNeeded (Some story)
                  = ((if n =? 0 then 10 else n) + 3) / 2)
    by (rewrite spreadsNeeded_half, panelCount_displayed; reflexivity).
  assert (Hn : 0 <= n) by (unfold n, JS.length; lia).
  split; [|split; [|split; [|split; [|split; [|split; [|split]]]]]].
  - intros ->. split; [|reflexivity]. unfold run, BookView.renderStoryboard. fold T.
    rewrite book_front by lia. reflexivity.
  - intros ->. split.
    + unfold run, BookView.renderStoryboard. fold T. rewrite book_back by lia. reflexivity.
    + unfold progressLabel. destruct (Z.eqb_spec (T - 1) 0); [lia|].
      rewrite Z.eqb_refl. reflexivity.
  - intros Hi Hpos Hev. split.
    + unfold run. rewrite render_spread by exact Hi. fold T.
      apply Z.even_spec in Hev. destruct Hev as [h Hh].
      destruct (Z.eqb_spec n 0); [lia|].
      assert (HSv : spreadsNeeded (Some story) = h + 1).
      { rewrite Hhalf, Hh. replace (2 * h + 3) with (1 + (h + 1) * 2) by lia.
        rewrite Z.div_add by lia. reflexivity. }
      unfold BookView.renderBlock, spread, leftPage, rightPage.
      destruct (Z.eqb_spec i 1); destruct (Z.eqb_spec i (T - 2));
        rewrite ?renderSlot_present by (fold n; lia); reflexivity.
    + unfold progressLabel. destruct (Z.eqb_spec i 0); [lia|].
      destruct (Z.eqb_spec i (T - 1)); [lia | reflexivity].
  - intros Hi Hodd. apply Z.odd_spec in Hodd. destruct Hodd as [h Hh].
    destruct (Z.eqb_spec n 0); [lia|].
    assert (HSv : spreadsNeeded (Some story) = h + 2).
    { rewrite Hhalf, Hh. replace (2 * h + 1 + 3) with (0 + (h + 2) * 2) by lia.
      rewrite Z.div_add by lia. reflexivity. }
    split.
    + intros Hlt. unfold run. rewrite render_spread by exact Hi. fold T.
      unfold BookView.renderBlock, spread, leftPage, rightPage.
      destruct (Z.eqb_spec i 1); destruct (Z.eqb_spec i (T - 2)); try lia;
        rewrite ?renderSlot_present by (fold n; lia); reflexivity.
    + intros ->. unfold run. rewrite render_spread by exact Hi. fold T.
      unfold BookView.renderBlock, leftPage.
      destruct (Z.eqb_spec (T - 2) 1); [lia|].
      destruct (renderSlot_missing story ((T - 2 - 1) * 2 - 1)) as [e He];
        [fold n; lia|].
      rewrite He. exists e. reflexivity.
  - intros Hi Hz. unfold run. rewrite render_spread by exact Hi. fold T.
    assert (HSv : spreadsNeeded (Some story) = 6) by (rewrite Hhalf, Hz; reflexivity).
    unfold BookView.renderBlock, leftPage, rightPage.
    destruct (Z.eqb_spec i 1) as [E1|N1].
    + destruct (Z.eqb_spec i (T - 2)); [lia|].
      destruct (renderSlot_missing story ((i - 1) * 2)) as [e He]; [fold n; lia|].
      cbn [BookView.renderSlot]. cbn [BookView.renderSlot] in He. rewrite He.
      exists e. reflexivity.
    + destruct (renderSlot_missing story ((i - 1) * 2 - 1)) as [e He]; [fold n; lia|].
      rewrite He. exists e. reflexivity.
  - intros Hi. unfold run, BookView.renderStoryboard. fold T. unfold book.
    destruct (Z.eqb_spec i 0); [lia|].
    destruct (Z.eqb_spec i (T - 1)); [lia|].
    destruct (Z.ltb_spec 0 i); destruct (Z.ltb_spec i (T - 1)); try lia; reflexivity.
  - intros view Hv. destruct view; try reflexivity. congruence.
  - intros view. destruct view; reflexivity.
Qed.

Lemma book_shows_one_block_witness :
  BookView.renderStoryboard STORYBOARD (Some (sampleStory 10)) 6
  = Ok [Spread (PanelSlot 9) Closing].
Proof.
  destruct (book_shows_one_block (sampleStory 10) 6) as [_ [_ [H _]]].
  apply H; [vm_compute; split; reflexivity | reflexivity | reflexivity].
Defined.

Lemma count_dots (c : Z) (a n : nat) :
  count_occ Bool.bool_dec (map (fun i => i =? c) (map Z.of_nat (seq a n))) true
  = if (Z.of_nat a <=? c) && (c <? Z.of_nat (a + n)) then 1%nat else 0%nat.
Proof.
  revert a. induction n as [|n IH]; intros a.
  - cbn. destruct (Z.leb_spec (Z.of_nat a) c); destruct (Z.ltb_spec c (Z.of_nat (a + 0)));
      try reflexivity; lia.
  - cbn [seq map count_occ]. rewrite IH.
    destruct (Z.eqb_spec (Z.of_nat a) c) as [E|NE];
      destruct (Bool.bool_dec _ true) as [B|B]; try discriminate B; try (exfalso; apply B; reflexivity);
      destruct (Z.leb_spec (Z.of_nat (S a)) c);
      destruct (Z.ltb_spec c (Z.of_nat (S a + n)));
      destruct (Z.leb_spec (Z.of_nat a) c);
      destruct (Z.ltb_spec c (Z.of_nat (a + S n)));
      cbn [andb]; try reflexivity; lia.
Qed.

(** X3.  The progress bar has one dot per state, and exactly one of
    them is highlighted whenever the current page is a state of the
    book. *)
Theorem progress_dots_one_active (story : option Story) (currentPage : Z) :
  let T := totalStates story in
  JS.length (progressDots T currentPage) = T /\
  (0 <= currentPage <= T - 1 ->
   count_occ Bool.bool_dec (progressDots T currentPage) true = 1%nat).
Proof.
  intros T. pose proof (spreadsNeeded_ge_2 story) as HS.
  assert (HT : T = 2 + spreadsNeeded story) by reflexivity.
  unfold progressDots, states. split.
  - unfold JS.length. rewrite !length_map, length_seq. lia.
  - intros Hc. rewrite count_dots.
    destruct (Z.leb_spec (Z.of_nat 0) currentPage);
      destruct (Z.ltb_spec currentPage (Z.of_nat (0 + Z.to_nat T))); try reflexivity; lia.
Qed.

Lemma progress_dots_one_active_witness :
  count_occ Bool.bool_dec (progressDots (totalStates None) 7) true = 1%nat.
Proof.
  apply (progress_dots_one_active None 7). vm_compute. split; discriminate.
Defined.

End Paging.

(** ** Image references *)

Section ImageReferences.
Import Spec Scenarios.

Lemma prefix_app (p a b : string) :
  String.prefix p a = true -> String.prefix p (a ++ b) = true.
Proof.
  revert p. induction a as [|d a IH]; intros p H.
  - destruct p; [destruct b; reflexivity | discriminate H].
  - destruct p as [|c p]; [reflexivity|]. cbn [String.prefix String.append] in *.
    destruct (Ascii.ascii_dec c d); [apply IH; exact H | discriminate H].
Qed.

Lemma startsWith_app (p rest : string) : JS.startsWith (p ++ rest) p = true.
Proof.
  unfold JS.startsWith. induction p as [|c p IH]; [destruct rest; reflexivity|].
  cbn [String.prefix String.append]. destruct (Ascii.ascii_dec c c); [exact IH | congruence].
Qed.

Lemma http_not_data (u : string) :
  JS.startsWith u "http" = true -> JS.startsWith u "data:" = false.
Proof.
  unfold JS.startsWith. destruct u as [|c u]; cbn [String.prefix]; [discriminate|].
  destruct (Ascii.ascii_dec "h" c) as [<-|]; [|discriminate]. reflexivity.
Qed.

Lemma fetchable_nonempty (u : string) : fetchable u = true -> JS.truthy_str u = true.
Proof. destruct u; [discriminate | reflexivity]. Qed.

(** X4.  With a base address that starts with "http", [getImageUrl]
    returns nothing exactly for a missing or empty file name, and
    otherwise a non-empty address that starts with "data:" or "http"
    and that [getImageUrl] maps to itself; inline images and absolute
    addresses pass through unchanged. *)
Theorem getImageUrl_fetchable (API_BASE_URL : string) (filename : option string) :
  JS.startsWith API_BASE_URL "http" = true ->
  match BackendApi.getImageUrl API_BASE_URL filename with
  | None => JS.truthy_ostr filename = false
  | Some u =>
      JS.truthy_ostr filename = true /\
      JS.truthy_str u = true /\
      fetchable u = true /\
      BackendApi.getImageUrl API_BASE_URL (Some u) = Some u /\
      (forall f, filename = Some f -> fetchable f = true -> u = f)
  end.
Proof.
  intros Hbase. destruct filename as [f|]; [|reflexivity].
  unfold BackendApi.getImageUrl at 1. unfold JS.truthy_ostr.
  destruct (JS.truthy_str f) eqn:Hf; cbn [negb]; [|reflexivity].
  fold (fetchable f). destruct (fetchable f) eqn:Hfetch.
  - repeat split; try assumption.
    + unfold BackendApi.getImageUrl. rewrite Hf. cbn [negb].
      fold (fetchable f). rewrite Hfetch. reflexivity.
    + intros f' Hf' _. congruence.
  - assert (Hu : fetchable (API_BASE_URL ++ "/images/" ++ f) = true).
    { unfold fetchable. apply orb_true_iff. right. apply prefix_app. exact Hbase. }
    repeat split.
    + apply fetchable_nonempty, Hu.
    + exact Hu.
    + unfold BackendApi.getImageUrl. rewrite (fetchable_nonempty _ Hu). cbn [negb].
      fold (fetchable (API_BASE_URL ++ "/images/" ++ f)). rewrite Hu. reflexivity.
    + intros f' Hf' Hfe. inversion Hf'; subst f'. congruence.
Qed.

Lemma getImageUrl_fetchable_witness :
  BackendApi.getImageUrl "http://localhost:8000"
    (Some "http://localhost:8000/images/42.png")
  = Some "http://localhost:8000/images/42.png".
Proof.
  apply (getImageUrl_fetchable "http://localhost:8000" (Some "42.png")). reflexivity.
Defined.

(** Facts about [split] on a one-character separator. *)
Lemma split_free (sep : ascii) (s : string) :
  free_of sep s = true -> JS.split sep s = [s].
Proof.
  induction s as [|c s IH]; [reflexivity|]. cbn.
  destruct (Ascii.eqb c sep); [discriminate|]. cbn. intros H.
  rewrite (IH H). reflexivity.
Qed.

Lemma split_app (sep : ascii) (a b : string) :
  free_of sep a = true ->
  JS.split sep (a ++ String sep b) = a :: JS.split sep b.
Proof.
  induction a as [|c a IH]; cbn.
  - rewrite Ascii.eqb_refl. reflexivity.
  - destruct (Ascii.eqb c sep); [discriminate|]. cbn. intros H.
    rewrite (IH H). reflexivity.
Qed.

Lemma split_parts_free (sep : ascii) (s : string) :
  JS.split sep s <> [] /\ Forall (fun x => free_of sep x = true) (JS.split sep s).
Proof.
  induction s as [|c s [IHn IHf]]; cbn.
  - split; [discriminate | repeat constructor].
  - destruct (Ascii.eqb c sep) eqn:E.
    + split; [discriminate | constructor; [reflexivity | exact IHf]].
    + destruct (JS.split sep s) as [|hd tl]; [contradiction|].
      split; [discriminate|]. inversion IHf; subst.
      constructor; [cbn; rewrite E; assumption | assumption].
Qed.

Lemma split_second_free (s x : string) :
  JS.index (JS.split "," s) 1 = Some x -> free_of "," x = true.
Proof.
  unfold JS.index. cbn [Z.ltb Z.compare Z.to_nat Pos.to_nat Pos.iter_op Nat.add].
  intros H. destruct (split_parts_free "," s) as [_ Hall].
  apply nth_error_In in H. rewrite Forall_forall in Hall. apply Hall, H.
Qed.

Section WithServer.
Variable API_BASE_URL : string.
Variable server : BackendApi.Server.

(** X5.  The image an edit or a generation returns is
    ["data:image/png;base64," ++ payload]; when that image is the source
    of the next edit, the resolution step recovers exactly the payload
    (which, being base64, contains no comma), without any request. *)
Theorem pureBase64_recovers_payload (payload : string) (w : World) :
  free_of "," payload = true ->
  BackendApi.pureBase64 server ("data:image/png;base64," ++ payload) w
  = (Ok (Some payload), w).
Proof.
  intros Hfree. unfold BackendApi.pureBase64.
  change (JS.startsWith ("data:image/png;base64," ++ payload) "data:") with true.
  cbv iota.
  change ("data:image/png;base64," ++ payload)%string
    with ("data:image/png;base64" ++ String "," payload)%string.
  rewrite split_app by reflexivity. rewrite (split_free _ _ Hfree). reflexivity.
Qed.

(** X6.  The photo sent for generation never carries the embedding
    prefix: nothing is sent unless the photo is an inline image; what is
    sent contains no comma; and for ["data:" ++ mime ++ "," ++ payload]
    with comma-free parts it is exactly the payload.  The other profile
    fields are copied. *)
Theorem profileForApi_photo (p : KidProfile) :
  (match photoUrl p with
   | Some u => JS.startsWith u "data:" = false
   | None => True
   end -> KidProfileForGeneration.photo_base64 (StoryGenerator.profileForApi p) = None) /\
  (forall x, KidProfileForGeneration.photo_base64 (StoryGenerator.profileForApi p) = Some x ->
             free_of "," x = true) /\
  (forall mime payload,
      photoUrl p = Some ("data:" ++ mime ++ String "," payload)%string ->
      free_of "," mime = true -> free_of "," payload = true ->
      KidProfileForGeneration.photo_base64 (StoryGenerator.profileForApi p) = Some payload) /\
  KidProfileForGeneration.name (StoryGenerator.profileForApi p) = name p /\
  KidProfileForGeneration.art_style (StoryGenerator.profileForApi p) = artStyle p.
Proof.
  unfold StoryGenerator.profileForApi. cbn [KidProfileForGeneration.photo_base64
    KidProfileForGeneration.name KidProfileForGeneration.art_style].
  split; [|split; [|split; [|split; reflexivity]]].
  - destruct (photoUrl p) as [u|]; [|reflexivity]. intros H. rewrite H. reflexivity.
  - intros x. destruct (photoUrl p) as [u|]; [|discriminate].
    destruct (JS.startsWith u "data:"); [|discriminate]. apply split_second_free.
  - intros mime payload Hu Hm Hp. rewrite Hu.
    rewrite (startsWith_app "data:").
    change ("data:" ++ mime ++ String "," payload)%string
      with (("data:" ++ mime) ++ String "," payload)%string.
    rewrite split_app by (cbn; exact Hm). rewrite (split_free _ _ Hp). reflexivity.
Qed.

End WithServer.

Lemma pureBase64_recovers_payload_witness :
  BackendApi.pureBase64 acceptingServer "data:image/png;base64,iVBORw0KGgo=" initialWorld
  = (Ok (Some "iVBORw0KGgo="), initialWorld).
Proof.
  apply (pureBase64_recovers_payload acceptingServer "iVBORw0KGgo=" initialWorld).
  reflexivity.
Defined.

Lemma profileForApi_photo_witness :
  KidProfileForGeneration.photo_base64
    (StoryGenerator.profileForApi
       (mkKidProfile "Mia" girl "tan" "black" "brown" "green" "astronaut" ""
                     None (Some "data:image/jpeg;base64,/9j/4AAQ") None))
  = Some "/9j/4AAQ".
Proof.
  apply (profileForApi_photo
           (mkKidProfile "Mia" girl "tan" "black" "brown" "green" "astronaut" ""
                         None (Some "data:image/jpeg;base64,/9j/4AAQ") None))
    with (mime := "image/jpeg;base64"); reflexivity.
Defined.

End ImageReferences.

(** ** What a panel shows and what an edit requests *)

Section PanelView.
Import Spec Scenarios ComicPanelView.
Variable API_BASE_URL : string.
Variable server : BackendApi.Server.
Variable panel : ComicPanelData.
Variable charDesc : string.
Variable profile : option KidProfile.

Local Abbreviation style :=
  (match profile with Some p => artStyle p | None => None end).

Lemma images_path_nonempty (f : string) :
  JS.truthy_str (API_BASE_URL ++ "/images/" ++ f) = true.
Proof. destruct API_BASE_URL; reflexivity. Qed.

Lemma resolvedImageUrl_value (u : string) :
  imageUrl panel = Some u -> JS.truthy_str u = true ->
  ComicPanel.resolvedImageUrl API_BASE_URL panel
  = Some (if fetchable u then u else (API_BASE_URL ++ "/images/" ++ u)%string).
Proof.
  intros Hu Ht. unfold ComicPanel.resolvedImageUrl, BackendApi.getImageUrl, fetchable.
  rewrite Hu, Ht. cbn [negb].
  destruct (JS.startsWith u "data:"); [reflexivity|]. cbn [orb].
  destruct (JS.startsWith u "http"); reflexivity.
Qed.

(** X7.  What the image container shows is decided by the panel alone:
    the spinner exactly while [isGenerating] is true; otherwise the
    placeholder exactly when the panel has no (or an empty) image;
    otherwise the image, taken as it is when inline or absolute and from
    the back end's [/images/] path when it is a file name, with the
    edit button exactly for inline images. *)
Theorem imageArea_classified :
  match imageArea API_BASE_URL panel with
  | PaintingScene => isGenerating panel = Some true
  | AwaitingVision =>
      isGenerating panel <> Some true /\ JS.truthy_ostr (imageUrl panel) = false
  | SceneImage src editButton =>
      isGenerating panel <> Some true /\
      exists u, imageUrl panel = Some u /\ JS.truthy_str u = true /\
                editButton = JS.startsWith u "data:" /\
                src = if fetchable u then u else (API_BASE_URL ++ "/images/" ++ u)%string
  end.
Proof.
  unfold imageArea.
  assert (Hgen : forall o : option bool,
             o <> Some true -> o = Some false \/ o = None).
  { intros [[|]|] H; auto. congruence. }
  destruct (isGenerating panel) as [[|]|] eqn:Hg; [reflexivity| |];
    (destruct (imageUrl panel) as [u|] eqn:Hu;
     [destruct (JS.truthy_str u) eqn:Ht|]);
    try (rewrite (resolvedImageUrl_value u Hu Ht);
         assert (Hs : JS.truthy_str
                        (if fetchable u then u else (API_BASE_URL ++ "/images/" ++ u)%string)
                      = true)
           by (destruct (fetchable u); [exact Ht | apply images_path_nonempty]);
         rewrite Hs; split; [discriminate|];
         exists u; unfold ComicPanel.isDataUrl; rewrite Hu; repeat split; assumption);
    unfold ComicPanel.resolvedImageUrl; rewrite Hu; try rewrite Ht;
    (split; [discriminate|]); unfold JS.truthy_ostr; try rewrite Ht; reflexivity.
Qed.

(** X8.  Whenever the edit button is offered, the image on display is
    the panel's own inline image, and an edit makes exactly one request:
    the POST to [/generate/edit-image] carrying what follows the first
    comma of that image.  No image is downloaded. *)
Theorem edit_button_single_request (src ep : string) (w : World) :
  imageArea API_BASE_URL panel = SceneImage src true ->
  imageUrl panel = Some src /\
  trace (snd (ComicPanel.editRequest API_BASE_URL server panel charDesc profile ep w))
  = trace w ++
    [Fetch (mkRequest POST (BackendApi.API_BASE API_BASE_URL ++ "/generate/edit-image")%string
              (EditImageBody (JS.index (JS.split "," src) 1)
                             (imagePrompt panel) ep charDesc style))].
Proof.
  intros Hview. pose proof imageArea_classified as Hc. rewrite Hview in Hc.
  destruct Hc as [_ [u [Hu [Ht [Hdata Hsrc]]]]]. symmetry in Hdata.
  assert (Hf : fetchable u = true) by (unfold fetchable; rewrite Hdata; reflexivity).
  rewrite Hf in Hsrc. subst u. split; [exact Hu|].
  unfold ComicPanel.editRequest, ComicPanel.sourceUrl.
  rewrite (resolvedImageUrl_value src Hu Ht), Hf. unfold JS.truthy_ostr. rewrite Ht.
  js_world w. unfold BackendApi.editPanelImage, BackendApi.pureBase64. rewrite Hdata.
  js_unfold. js_step.
  destruct (BackendApi.on_edit_image server _ _) as [resp|e]; js_step; [|reflexivity].
  destruct (ok resp); js_step;
    [|destruct (BackendApi.error_message resp _); js_step; reflexivity].
  destruct (json resp); js_step; reflexivity.
Qed.

(** X9.  With a base address that starts with "http", editing a panel
    whose image is a stored file name first downloads
    [API_BASE_URL/images/<name>]; if the download rejects, the edit
    rejects with that error and nothing is posted; otherwise (whatever
    the status of the answer) what follows the first comma of the data
    URL read from the download is posted. *)
Theorem edit_stored_file_downloads_first (f ep : string) (w : World) :
  JS.startsWith API_BASE_URL "http" = true ->
  imageUrl panel = Some f ->
  JS.truthy_str f = true ->
  fetchable f = false ->
  let download := mkRequest GET (API_BASE_URL ++ "/images/" ++ f)%string NoBody in
  let run := ComicPanel.editRequest API_BASE_URL server panel charDesc profile ep w in
  match BackendApi.on_image_get server (trace w) download with
  | Throw e => run = (Throw e, logged w [Fetch download])
  | Ok dataUrl =>
      trace (snd run)
      = trace w ++
        [Fetch download;
         Fetch (mkRequest POST
                  (BackendApi.API_BASE API_BASE_URL ++ "/generate/edit-image")%string
                  (EditImageBody (JS.index (JS.split "," dataUrl) 1)
                                 (imagePrompt panel) ep charDesc style))]
  end.
Proof.
  intros Hbase Hu Ht Hf download run. subst run.
  assert (Hhttp : JS.startsWith (API_BASE_URL ++ "/images/" ++ f) "http" = true)
    by (apply prefix_app; exact Hbase).
  unfold ComicPanel.editRequest, ComicPanel.sourceUrl.
  rewrite (resolvedImageUrl_value f Hu Ht), Hf. unfold JS.truthy_ostr.
  rewrite images_path_nonempty.
  js_world w. unfold BackendApi.editPanelImage, BackendApi.pureBase64.
  rewrite (http_not_data _ Hhttp), Hhttp.
  js_unfold. unfold logged. js_unfold. js_step. fold download.
  destruct (BackendApi.on_image_get server w_trace download) as [dataUrl|e]; js_step;
    [|reflexivity].
  destruct (BackendApi.on_edit_image server _ _) as [resp|e]; js_step;
    [|rewrite <- !app_assoc; reflexivity].
  destruct (ok resp); js_step;
    [|destruct (BackendApi.error_message resp _); js_step;
      rewrite <- !app_assoc; reflexivity].
  destruct (json resp); js_step; rewrite <- !app_assoc; reflexivity.
Qed.

End PanelView.

Section PanelViewInstances.
Import Spec Scenarios ComicPanelView.

Lemma edit_button_single_request_witness :
  imageUrl (samplePanel 3) = Some "data:image/png;base64,AAAA".
Proof.
  apply (edit_button_single_request "http://localhost:8000" unreachableServer
           (samplePanel 3) "a small hero" (Some sampleProfile)
           "data:image/png;base64,AAAA" "add a dragon" initialWorld).
  reflexivity.
Defined.

Lemma edit_stored_file_downloads_first_witness :
  ComicPanel.editRequest "http://localhost:8000" unreachableServer storedPanel
    "a small hero" (Some sampleProfile) "add a dragon" initialWorld
  = (Throw (ErrorObj "Failed to fetch"),
     logged initialWorld
       [Fetch (mkRequest GET "http://localhost:8000/images/42.png" NoBody)]).
Proof.
  apply (edit_stored_file_downloads_first "http://localhost:8000" unreachableServer
           storedPanel "a small hero" (Some sampleProfile) "42.png" "add a dragon"
           initialWorld); reflexivity.
Defined.

End PanelViewInstances.

(** ** The store under repeated and failed updates *)

Section StoreUpdates.
Import StoryGenerator Spec Scenarios.
Variable API_BASE_URL : string.
Variable server : BackendApi.Server.

Local Abbreviation updatePanel := (StoryGenerator.updatePanel API_BASE_URL server).

Lemma withPanels_same (st : Story) : withPanels st (panels st) = st.
Proof. destruct st; reflexivity. Qed.

Lemma replacePanel_unknown (updated : ComicPanelData) (ps : list ComicPanelData) :
  JS.findIndex (fun p => String.eqb (id p) (id updated)) ps = -1 ->
  replacePanel updated ps = ps.
Proof.
  intros Hk. unfold JS.findIndex in Hk.
  destruct (findIndex_from_spec (fun p => String.eqb (id p) (id updated)) ps 0 ltac:(lia))
    as [[_ Hall]|[Hr _]]; [|lia].
  clear Hk. unfold replacePanel. induction Hall as [|p ps Hp _ IH]; [reflexivity|].
  cbn [map]. rewrite Hp, IH. reflexivity.
Qed.

Lemma replacePanel_idem (updated : ComicPanelData) (ps : list ComicPanelData) :
  replacePanel updated (replacePanel updated ps) = replacePanel updated ps.
Proof.
  unfold replacePanel. rewrite map_map. apply map_ext. intros p.
  destruct (String.eqb_spec (id p) (id updated)) as [E|NE].
  - rewrite String.eqb_refl. reflexivity.
  - apply String.eqb_neq in NE. rewrite NE. reflexivity.
Qed.

Lemma replacePanel_comm (u1 u2 : ComicPanelData) (ps : list ComicPanelData) :
  id u1 <> id u2 ->
  replacePanel u2 (replacePanel u1 ps) = replacePanel u1 (replacePanel u2 ps).
Proof.
  intros Hne.
  assert (H12 : String.eqb (id u1) (id u2) = false) by (apply String.eqb_neq; exact Hne).
  assert (H21 : String.eqb (id u2) (id u1) = false) by (apply String.eqb_neq; congruence).
  unfold replacePanel. rewrite !map_map. apply map_ext. intros p.
  destruct (String.eqb (id p) (id u1)) eqn:E1;
    destruct (String.eqb (id p) (id u2)) eqn:E2;
    rewrite ?E1, ?E2, ?H12, ?H21; try reflexivity.
  apply String.eqb_eq in E1, E2. congruence.
Qed.

(** [updatePanel] touches the story cell and the trace only, and never
    notifies the user. *)
Lemma updatePanel_cells (updated : ComicPanelData) (w : World) :
  exists evs,
    snd (updatePanel updated w) = stored w (story (snd (updatePanel updated w))) evs /\
    toasts evs = [].
Proof.
  js_world w. js_unfold. destruct w_story as [st|]; js_step.
  - destruct (JS.truthy_onum w_saved && _ && _);
      [destruct w_saved as [sid|]; [destruct (imageUrl updated) as [img|]|]|];
      try (eexists; split; reflexivity).
    destruct (BackendApi.on_panel_patch server _ _) as [r|e];
      [destruct (ok r)|]; js_step;
      (eexists; split; [rewrite <- !app_assoc; reflexivity | reflexivity]).
  - exists []. rewrite app_nil_r. split; reflexivity.
Qed.

(** X10.  [updatePanel] sends nothing unless the story is saved under a
    non-zero id, the panel's id occurs in the story and the update
    carries a non-empty image: in every other case the only effect is
    the store write; for an id that does not occur the story written is
    the story that was there; and without a story nothing happens at
    all. *)
Theorem updatePanel_sends_nothing_unless (updated : ComicPanelData) (w : World) :
  (story w = None -> updatePanel updated w = (Ok tt, w)) /\
  (forall st, story w = Some st ->
     JS.truthy_onum (savedStoryId w) = false \/
     JS.findIndex (fun p => String.eqb (id p) (id updated)) (panels st) = -1 \/
     JS.truthy_ostr (imageUrl updated) = false ->
     updatePanel updated w
     = (Ok tt, stored w (Some (withPanels st (replacePanel updated (panels st))))
                 [SetStory (Some (withPanels st (replacePanel updated (panels st))))])) /\
  (forall st, story w = Some st ->
     JS.findIndex (fun p => String.eqb (id p) (id updated)) (panels st) = -1 ->
     story (snd (updatePanel updated w)) = Some st).
Proof.
  split; [|split].
  - intros Hst. js_world w. reflexivity.
  - intros st Hst Hcond. js_world w. js_unfold. js_step.
    destruct (JS.truthy_onum w_saved && _ && _) eqn:Hguard; [|reflexivity].
    apply andb_true_iff in Hguard. destruct Hguard as [Hg Himg].
    apply andb_true_iff in Hg. destruct Hg as [Hsaved Hk].
    destruct Hcond as [H|[H|H]]; try congruence.
    rewrite H in Hk. discriminate Hk.
  - intros st Hst Hk.
    destruct (updatePanel_store API_BASE_URL server updated w st Hst) as [_ [Hs _]].
    rewrite Hs, (replacePanel_unknown _ _ Hk), withPanels_same. reflexivity.
Qed.

(** X11.  Applying the same panel update twice leaves the story as
    after the first application. *)
Theorem updatePanel_idempotent (updated : ComicPanelData) (w : World) (st : Story) :
  story w = Some st ->
  story (snd (updatePanel updated (snd (updatePanel updated w))))
  = story (snd (updatePanel updated w)).
Proof.
  intros Hst.
  destruct (updatePanel_store API_BASE_URL server updated w st Hst) as [_ [H1 _]].
  destruct (updatePanel_store API_BASE_URL server updated _ _ H1) as [_ [H2 _]].
  rewrite H2, H1. unfold withPanels. cbn [panels title foreword characterDescription
    coverImagePrompt coverImageUrl]. rewrite replacePanel_idem. reflexivity.
Qed.

(** X12.  Two panel updates with different ids.  Delivered by the
    callbacks of successive renders, each created after the previous
    write, they do not interfere: both edits end in the store, and in
    either order the store holds the same story.  Delivered by the
    callback of one render they do interfere: the second write is
    built from the story that render captured, so the store ends with
    the last update alone, and the two orders leave different stories
    as soon as the first update changes a panel. *)
Theorem updatePanel_two_updates (u1 u2 : ComicPanelData) (w : World) (st : Story) :
  let captured := Closure.updatePanelOf API_BASE_URL server (story w) (savedStoryId w) in
  story w = Some st ->
  id u1 <> id u2 ->
  story (snd (updatePanel u2 (snd (updatePanel u1 w))))
  = Some (withPanels st (replacePanel u2 (replacePanel u1 (panels st)))) /\
  story (snd (updatePanel u2 (snd (updatePanel u1 w))))
  = story (snd (updatePanel u1 (snd (updatePanel u2 w)))) /\
  story (snd (captured u2 (snd (captured u1 w))))
  = Some (withPanels st (replacePanel u2 (panels st))) /\
  story (snd (captured u1 (snd (captured u2 w))))
  = Some (withPanels st (replacePanel u1 (panels st))) /\
  (forall i p, nth_error (panels st) i = Some p -> id p = id u1 -> p <> u1 ->
     story (snd (captured u2 (snd (captured u1 w))))
     <> story (snd (captured u1 (snd (captured u2 w))))).
Proof.
  intros captured Hst Hne. subst captured. rewrite Hst.
  destruct (updatePanel_store API_BASE_URL server u1 w st Hst) as [_ [H1 _]].
  destruct (updatePanel_store API_BASE_URL server u2 w st Hst) as [_ [H2 _]].
  destruct (updatePanel_store API_BASE_URL server u2 _ _ H1) as [_ [H12 _]].
  destruct (updatePanel_store API_BASE_URL server u1 _ _ H2) as [_ [H21 _]].
  destruct (updatePanelOf_store API_BASE_URL server st (savedStoryId w) u2
              (snd (Closure.updatePanelOf API_BASE_URL server (Some st) (savedStoryId w) u1 w)))
    as [_ [C12 _]].
  destruct (updatePanelOf_store API_BASE_URL server st (savedStoryId w) u1
              (snd (Closure.updatePanelOf API_BASE_URL server (Some st) (savedStoryId w) u2 w)))
    as [_ [C21 _]].
  cbv zeta in C12, C21.
  split; [|split; [|split; [|split]]].
  - rewrite H12. reflexivity.
  - rewrite H12, H21. unfold withPanels. cbn [panels title foreword characterDescription
      coverImagePrompt coverImageUrl]. rewrite (replacePanel_comm u1 u2 _ Hne). reflexivity.
  - exact C12.
  - exact C21.
  - intros i p Hp Hid Hchanged Heq. rewrite C12, C21 in Heq.
    injection Heq as Hpanels.
    destruct (replacePanel_nth u2 _ i p Hp) as [Hkeep _].
    destruct (replacePanel_nth u1 _ i p Hp) as [_ Hrepl].
    rewrite Hpanels, (Hrepl Hid) in Hkeep.
    assert (Some u1 = Some p) by (apply Hkeep; congruence).
    congruence.
Qed.

(** X13.  A panel update never changes the number of states of the
    book, so the current page stays a state of the book. *)
Theorem updatePanel_keeps_page_states (updated : ComicPanelData) (w : World) (st : Story) :
  story w = Some st ->
  MainPage.totalStates (story (snd (updatePanel updated w))) = MainPage.totalStates (story w).
Proof.
  intros Hst.
  destruct (updatePanel_store API_BASE_URL server updated w st Hst) as [_ [H1 _]].
  rewrite H1, Hst. unfold MainPage.totalStates, MainPage.spreadsNeeded, MainPage.panelCount.
  cbn [option_map withPanels panels]. unfold JS.length.
  rewrite replacePanel_length. reflexivity.
Qed.

End StoreUpdates.

Section StoreUpdatesInstances.
Import StoryGenerator Spec Scenarios.

Lemma updatePanel_sends_nothing_unless_witness :
  requests (trace (snd (StoryGenerator.updatePanel "http://localhost:8000" acceptingServer
                          (ComicPanel.withImage storedPanel "data:image/png;base64,BBBB")
                          (readingWorld (Some 7))))) = [].
Proof.
  destruct (updatePanel_sends_nothing_unless "http://localhost:8000" acceptingServer
              (ComicPanel.withImage storedPanel "data:image/png;base64,BBBB")
              (readingWorld (Some 7))) as [_ [H _]].
  rewrite (H (sampleStory 10) eq_refl); [reflexivity|].
  right. left. reflexivity.
Defined.

Lemma updatePanel_idempotent_witness :
  option_map (fun s => List.length (panels s))
    (story (snd (StoryGenerator.updatePanel "http://localhost:8000" acceptingServer
                   (ComicPanel.withImage (samplePanel 3) "data:image/png;base64,BBBB")
                   (snd (StoryGenerator.updatePanel "http://localhost:8000" acceptingServer
                           (ComicPanel.withImage (samplePanel 3) "data:image/png;base64,BBBB")
                           (readingWorld (Some 7)))))))
  = Some 10%nat.
Proof.
  rewrite (updatePanel_idempotent "http://localhost:8000" acceptingServer
             (ComicPanel.withImage (samplePanel 3) "data:image/png;base64,BBBB")
             (readingWorld (Some 7)) (sampleStory 10) eq_refl).
  reflexivity.
Defined.

Lemma updatePanel_two_updates_witness :
  let w := readingWorld (Some 7) in
  let captured :=
    Closure.updatePanelOf "http://localhost:8000" acceptingServer (story w) (savedStoryId w) in
  let u3 := ComicPanel.withImage (samplePanel 3) "data:image/png;base64,BBBB" in
  let u4 := ComicPanel.withImage (samplePanel 4) "data:image/png;base64,CCCC" in
  story (snd (captured u4 (snd (captured u3 w))))
  <> story (snd (captured u3 (snd (captured u4 w)))).
Proof.
  cbv zeta.
  destruct (updatePanel_two_updates "http://localhost:8000" acceptingServer
              (ComicPanel.withImage (samplePanel 3) "data:image/png;base64,BBBB")
              (ComicPanel.withImage (samplePanel 4) "data:image/png;base64,CCCC")
              (readingWorld (Some 7)) (sampleStory 10) eq_refl
              ltac:(vm_compute; discriminate)) as [_ [_ [_ [_ H]]]].
  apply (H 3%nat (samplePanel 3)); [reflexivity | reflexivity | discriminate].
Defined.

Lemma updatePanel_keeps_page_states_witness :
  MainPage.totalStates
    (story (snd (StoryGenerator.updatePanel "http://localhost:8000" unreachableServer
                   (ComicPanel.withImage (samplePanel 3) "data:image/png;base64,BBBB")
                   (readingWorld (Some 7))))) = 8.
Proof.
  rewrite (updatePanel_keeps_page_states "http://localhost:8000" unreachableServer
             (ComicPanel.withImage (samplePanel 3) "data:image/png;base64,BBBB")
             (readingWorld (Some 7)) (sampleStory 10) eq_refl).
  reflexivity.
Defined.

End StoreUpdatesInstances.

(** ** The edit dialog, end to end *)

Section EditEndToEnd.
Import Spec Scenarios.
Variable API_BASE_URL : string.
Variable server : BackendApi.Server.
Variable panel : ComicPanelData.
Variable charDesc : string.
Variable profile : option KidProfile.

Lemma toasts_app (a b : list Event) : toasts (a ++ b) = toasts a ++ toasts b.
Proof. unfold toasts. apply flat_map_app. Qed.

Lemma toasts_requests (evs : list Event) :
  forallb is_request evs = true -> toasts evs = [].
Proof.
  induction evs as [|e evs IH]; [reflexivity|]. cbn [forallb]. intros H.
  apply andb_true_iff in H. destruct H as [He Hevs].
  destruct e; try discriminate He. cbn. apply IH, Hevs.
Qed.

(** X14.  [handleEdit] never throws, whatever the back end and the
    [onUpdate] callback do, and once it has passed its guard it always
    ends with the processing flag cleared.  A callback that throws
    synchronously after a successful edit call is caught like a failed
    edit call: the error goes to the console, the one notification is
    shown, and the dialog and the instruction stay as the callback left
    them. *)
Theorem handleEdit_never_throws (onUpdate : ComicPanelData -> M unit) (w : World) :
  let run := ComicPanel.handleEdit API_BASE_URL server panel onUpdate charDesc profile w in
  fst run = Ok tt /\
  (JS.truthy_ostr (imageUrl panel) = true -> editPrompt w <> "" ->
   isProcessing (snd run) = false) /\
  (forall img e w1 w2,
     JS.truthy_ostr (imageUrl panel) = true -> editPrompt w <> "" ->
     ComicPanel.editRequest API_BASE_URL server panel charDesc profile (editPrompt w)
       (snd (setIsProcessing true w)) = (Ok img, w1) ->
     onUpdate (ComicPanel.withImage panel img) w1 = (Throw e, w2) ->
     story (snd run) = story w2 /\
     savedStoryId (snd run) = savedStoryId w2 /\
     isEditing (snd run) = isEditing w2 /\
     editPrompt (snd run) = editPrompt w2 /\
     trace (snd run)
     = trace w2 ++ [ConsoleError None e; ToastError "Oops! Magic failed. Try again."]).
Proof.
  cbv zeta. unfold ComicPanel.handleEdit. cbv [bind get].
  destruct (negb (JS.truthy_ostr (imageUrl panel)) || negb (JS.truthy_str (editPrompt w)))
    eqn:Hguard.
  - split; [reflexivity|]. split.
    + intros Hi Hp. rewrite Hi in Hguard.
      destruct (editPrompt w); [congruence | discriminate Hguard].
    + intros img e w1 w2 Hi Hp. rewrite Hi in Hguard.
      destruct (editPrompt w); [congruence | discriminate Hguard].
  - cbv [setIsProcessing finally try_catch bind]. cbn [snd].
    destruct (ComicPanel.editRequest API_BASE_URL server panel charDesc profile _ _)
      as [[img|e] w1].
    + destruct (onUpdate _ w1) as [[[]|e] w2] eqn:Hcb.
      * js_unfold; js_step. split; [reflexivity|]. split; [reflexivity|].
        intros img' e' w1' w2' _ _ Hreq Hthrow.
        injection Hreq as <- <-. rewrite Hcb in Hthrow. discriminate Hthrow.
      * js_unfold; js_step. split; [reflexivity|]. split; [reflexivity|].
        intros img' e' w1' w2' _ _ Hreq Hthrow.
        injection Hreq as <- <-. rewrite Hcb in Hthrow.
        injection Hthrow as <- <-.
        rewrite <- app_assoc. repeat split.
    + js_unfold; js_step. split; [reflexivity|]. split; [reflexivity|].
      intros img' e' w1' w2' _ _ Hreq. discriminate Hreq.
Qed.

(** X15.  A successful edit, end to end: when the panel has an image,
    an instruction is typed in and the edit call returns an image, the
    handler (wired to [updatePanel] as in the main page) leaves in the
    store the story with that panel's image replaced, closes the dialog,
    clears the instruction and the processing flag, keeps the saved id
    and notifies nothing. *)
Theorem handleEdit_success (w : World) (st : Story) (img : string) :
  JS.truthy_ostr (imageUrl panel) = true ->
  editPrompt w <> "" ->
  story w = Some st ->
  fst (ComicPanel.editRequest API_BASE_URL server panel charDesc profile (editPrompt w) w)
  = Ok img ->
  let w' := snd (ComicPanel.handleEdit API_BASE_URL server panel
                   (StoryGenerator.updatePanel API_BASE_URL server) charDesc profile w) in
  story w' = Some (withPanels st
                     (StoryGenerator.replacePanel (ComicPanel.withImage panel img) (panels st))) /\
  savedStoryId w' = savedStoryId w /\
  isEditing w' = false /\
  editPrompt w' = "" /\
  isProcessing w' = false /\
  toasts (trace w') = toasts (trace w).
Proof.
  intros Hi Hp Hst Hok. cbv zeta. unfold ComicPanel.handleEdit. cbv [bind get].
  assert (Ht : JS.truthy_str (editPrompt w) = true)
    by (destruct (editPrompt w); [congruence | reflexivity]).
  rewrite Hi, Ht. cbn [negb orb].
  cbv [setIsProcessing finally try_catch bind].
  set (w0 := mkWorld (story w) (savedStoryId w) (view w) (Runtime.profile w)
                     (currentPage w) (isEditing w) (editPrompt w) true (trace w)).
  destruct (editRequest_network_only API_BASE_URL server panel charDesc profile
              (editPrompt w) w w0 eq_refl) as [Hfst [evs [Hreq [_ Hsnd]]]].
  destruct (ComicPanel.editRequest API_BASE_URL server panel charDesc profile
              (editPrompt w) w0) as [r w1] eqn:Hrun.
  cbn [fst snd] in Hfst, Hsnd. rewrite Hok in Hfst. subst r w1.
  set (u := ComicPanel.withImage panel img).
  set (w1 := logged w0 evs).
  assert (Hst1 : story w1 = Some st) by exact Hst.
  destruct (updatePanel_store API_BASE_URL server u w1 st Hst1) as [Hret [Hs Hid]].
  destruct (updatePanel_cells API_BASE_URL server u w1) as [uevs [Hcells Hquiet]].
  destruct (StoryGenerator.updatePanel API_BASE_URL server u w1) as [r w2].
  cbn [fst snd] in Hret, Hs, Hid, Hcells. subst r. rewrite Hcells, Hs.
  js_unfold. js_step.
  repeat split.
  subst w1 w0. unfold logged, stored. js_step.
  rewrite !toasts_app, Hquiet, (toasts_requests evs Hreq), !app_nil_r. reflexivity.
Qed.

End EditEndToEnd.

Section EditEndToEndInstances.
Import Spec Scenarios.

Lemma handleEdit_never_throws_witness :
  let run := ComicPanel.handleEdit "http://localhost:8000" acceptingServer
               (samplePanel 3) (fun _ => throw NonError)
               "a small hero" (Some sampleProfile) (readingWorld (Some 7)) in
  isProcessing (snd run) = false /\
  isEditing (snd run) = true /\
  toasts (trace (snd run)) = ["Oops! Magic failed. Try again."].
Proof.
  cbv zeta.
  destruct (handleEdit_never_throws "http://localhost:8000" acceptingServer
              (samplePanel 3) "a small hero" (Some sampleProfile)
              (fun _ => throw NonError) (readingWorld (Some 7))) as [_ [Hflag Hcaught]].
  split; [apply Hflag; [reflexivity | discriminate]|].
  destruct (Hcaught _ _ _ _ eq_refl ltac:(discriminate) eq_refl eq_refl)
    as [_ [_ [Hdialog [_ Htrace]]]].
  split; [rewrite Hdialog; reflexivity | rewrite Htrace; reflexivity].
Defined.

Lemma handleEdit_success_witness :
  isEditing (snd (ComicPanel.handleEdit "http://localhost:8000" acceptingServer
                    (samplePanel 3)
                    (StoryGenerator.updatePanel "http://localhost:8000" acceptingServer)
                    "a small hero" (Some sampleProfile) (readingWorld (Some 7))))
  = false.
Proof.
  apply (handleEdit_success "http://localhost:8000" acceptingServer
           (samplePanel 3) "a small hero" (Some sampleProfile)
           (readingWorld (Some 7)) (sampleStory 10) "data:image/png;base64,BBBB");
    [reflexivity | discriminate | reflexivity | reflexivity].
Defined.

End EditEndToEndInstances.

(** ** Generation errors and loading from the library *)

Section GenerationErrors.
Import Spec Scenarios.
Variable API_BASE_URL : string.
Variable server : BackendApi.Server.

(** X16.  When the back end answers the generation request with a
    non-2xx status, the wizard shows exactly one notification, decided
    by the error body: a non-empty string [detail] is shown verbatim;
    any other truthy [detail] (the list of a validation error, say) is
    shown as [String(detail)]; a missing, null, empty or otherwise falsy
    [detail], or a body that does not parse, gives "Failed to generate
    story: " followed by the status text; and a body that is [null]
    gives the message of the [TypeError] raised by reading its
    [detail]. *)
Theorem generation_error_detail_surfaced (p : KidProfile) (w : World)
        (resp : Response GenerateAndSaveStoryResponse.t) :
  let req := mkRequest POST (BackendApi.API_BASE API_BASE_URL ++ "/stories/generate")%string
                       (GenerateBody (StoryGenerator.profileForApi p)) in
  let w' := snd (MainPage.handleWizardComplete API_BASE_URL server p w) in
  let fallback := ("Failed to generate story: " ++ statusText resp)%string in
  BackendApi.on_generate server (trace w) req = Ok resp ->
  ok resp = false ->
  (forall d, error_json resp = Ok (Some (ErrorBody.mk (JsValue.Str d))) -> d <> "" ->
             trace w' = trace w ++ [Fetch req; ToastError d]) /\
  (forall text, error_json resp = Ok (Some (ErrorBody.mk (JsValue.Other true text))) ->
                trace w' = trace w ++ [Fetch req; ToastError text]) /\
  (forall body, error_json resp = Ok (Some body) ->
                JsValue.truthy (ErrorBody.detail body) = false ->
                trace w' = trace w ++ [Fetch req; ToastError fallback]) /\
  ((exists e, error_json resp = Throw e) ->
   trace w' = trace w ++ [Fetch req; ToastError fallback]) /\
  (error_json resp = Ok None ->
   trace w' = trace w ++ [Fetch req;
                          ToastError "Cannot read properties of null (reading 'detail')"]).
Proof.
  intros req w' fallback Hans Hok. subst w'.
  js_world w. unfold MainPage.handleWizardComplete. js_unfold. js_step.
  fold req. rewrite Hans. js_step. rewrite Hok. js_step.
  unfold BackendApi.error_message.
  split; [|split; [|split; [|split]]].
  - intros d Hd Hne. rewrite Hd. cbn [ErrorBody.detail JsValue.truthy JsValue.toString].
    destruct d; [congruence|]. cbn [JS.truthy_str]. js_step.
    rewrite <- !app_assoc. reflexivity.
  - intros text Hd. rewrite Hd. cbn [ErrorBody.detail JsValue.truthy JsValue.toString].
    js_step. rewrite <- !app_assoc. reflexivity.
  - intros body Hd Hf. rewrite Hd, Hf. js_step. rewrite <- !app_assoc. reflexivity.
  - intros [e Hd]. rewrite Hd. js_step. rewrite <- !app_assoc. reflexivity.
  - intros Hd. rewrite Hd. js_step. rewrite <- !app_assoc. reflexivity.
Qed.

End GenerationErrors.

Section GenerationErrorsInstances.
Import Spec Scenarios.

Lemma generation_error_detail_surfaced_witness :
  trace (snd (MainPage.handleWizardComplete "http://localhost:8000"
                (refusingServer (JsValue.Str "Gemini quota exceeded")) sampleProfile
                initialWorld))
  = [Fetch (mkRequest POST "http://localhost:8000/api/stories/generate"
              (GenerateBody (StoryGenerator.profileForApi sampleProfile)));
     ToastError "Gemini quota exceeded"].
Proof.
  destruct (generation_error_detail_surfaced "http://localhost:8000"
              (refusingServer (JsValue.Str "Gemini quota exceeded")) sampleProfile
              initialWorld
              (mkResponse false "Internal Server Error" (Throw NonError)
                          (Ok (Some (ErrorBody.mk (JsValue.Str "Gemini quota exceeded")))))
              eq_refl eq_refl) as [H _].
  apply (H "Gemini quota exceeded"); [reflexivity | discriminate].
Defined.

End GenerationErrorsInstances.

Section LoadingFromLibrary.
Import Spec Scenarios History.
Variable API_BASE_URL : string.
Variable library : Library.Server.

(** X17.  Loading a saved story never throws.  If reading the story
    fails, the store, the profile and the current page are as before,
    the view is back at the wizard and there is exactly one
    notification, "Failed to load story".  If it succeeds, the store
    holds the story normalised exactly as after a generation, the saved
    id is the id that was asked for, the book is opened at the front
    cover, and the restored profile has no art style and no photo. *)
Theorem loadStoryFromHistory_outcome (storyId : Z) (w : World) :
  let w' := snd (loadStoryFromHistory API_BASE_URL library storyId w) in
  fst (loadStoryFromHistory API_BASE_URL library storyId w) = Ok tt /\
  match fst (Library.getStory API_BASE_URL library storyId w) with
  | Throw e =>
      story w' = story w /\
      savedStoryId w' = savedStoryId w /\
      profile w' = profile w /\
      currentPage w' = currentPage w /\
      view w' = ONBOARDING /\
      exists req,
        trace w' = trace w ++
          [Fetch req; ConsoleError (Some "Failed to load story:") e;
           ToastError "Failed to load story"]
  | Ok data =>
      story w' = Some (StoryGenerator.mapApiStory data) /\
      savedStoryId w' = Some storyId /\
      currentPage w' = 0 /\
      view w' = STORYBOARD /\
      toasts (trace w') = toasts (trace w) /\
      exists pr, profile w' = Some pr /\ artStyle pr = None /\ photoUrl pr = None /\
                 name pr = KidProfileResponse.name (StoryDetailResponse.profile data)
  end.
Proof.
  js_world w. unfold loadStoryFromHistory, Library.getStory. js_unfold.
  cbv [setCurrentPage]. js_step.
  destruct (Library.on_story_get library _ _) as [resp|e]; js_step.
  - destruct (ok resp); js_step.
    + destruct (json resp) as [data|e]; js_step.
      * repeat split.
        -- rewrite !toasts_app. cbn. rewrite !app_nil_r. reflexivity.
        -- eexists. repeat split.
      * repeat split. eexists. rewrite <- !app_assoc. reflexivity.
    + repeat split. eexists. rewrite <- !app_assoc. reflexivity.
  - repeat split. eexists. rewrite <- !app_assoc. reflexivity.
Qed.

End LoadingFromLibrary.

(** ** The library page *)

Section Gallery.
Import Spec Scenarios GalleryPage.
Variable API_BASE_URL : string.
Variable library : Library.Server.


(** X19.  Loading the library never throws and always ends with the
    loading flag cleared; on success the list is what the back end
    sent and nothing is notified; on failure the list is as before and
    the one notification reads "Failed to load stories: " followed by
    the error's message. *)
Theorem loadStories_outcome (c : Cells) (w : World) :
  let run := loadStories API_BASE_URL library c w in
  exists c',
    fst run = Ok c' /\
    loading c' = false /\
    match fst (Library.getStories API_BASE_URL library w) with
    | Ok data =>
        stories c' = data /\ toasts (trace (snd run)) = toasts (trace w)
    | Throw e =>
        stories c' = stories c /\
        toasts (trace (snd run))
        = toasts (trace w) ++
          [("Failed to load stories: " ++
            match e with ErrorObj m => m | NonError => "Unknown error" end)%string]
    end.
Proof.
  cbv zeta. js_world w. unfold loadStories, Library.getStories. js_unfold. js_step.
  destruct (Library.on_stories_get library _ _) as [resp|e]; js_step.
  - destruct (ok resp); js_step.
    + destruct (json resp) as [data|e]; js_step;
        (eexists; split; [reflexivity|]; split; [reflexivity|]; split; [reflexivity|]);
        rewrite !toasts_app; cbn; rewrite ?app_nil_r; reflexivity.
    + eexists; split; [reflexivity|]; split; [reflexivity|]; split; [reflexivity|].
      rewrite !toasts_app. cbn. rewrite ?app_nil_r. reflexivity.
  - eexists; split; [reflexivity|]; split; [reflexivity|]; split; [reflexivity|].
    rewrite !toasts_app. cbn. rewrite ?app_nil_r. reflexivity.
Qed.

End Gallery.

Section GalleryInstances.
Import Spec Scenarios GalleryPage.


End GalleryInstances.

(** ** The wizard's step buttons *)

Section Wizard.
Import KidWizard.

(** X20.  Under any sequence of Back and Continue clicks the wizard's
    step stays between 1 and the number of steps; every profile handed
    to [onSubmit] is the wizard's profile; and nothing is submitted
    before Continue has been clicked once for each remaining step and
    once more. *)
Theorem wizard_steps_invariant (cs : list Click) (step : Z) (profile : KidProfile) :
  1 <= step <= totalSteps ->
  1 <= fst (clicks cs step profile) <= totalSteps /\
  Forall (fun p => p = profile) (snd (clicks cs step profile)) /\
  (snd (clicks cs step profile) <> [] -> totalSteps - step + 1 <= continues cs).
Proof.
  assert (HT : totalSteps = 5) by reflexivity.
  revert step. induction cs as [|c cs IH]; intros step Hstep.
  - cbn. repeat split; try lia; [constructor | congruence].
  - cbn [clicks]. unfold continues. cbn [filter].
    destruct c; cbn [click].
    + destruct (Z.ltb_spec 1 step) as [H1|H1].
      * destruct (IH (step - 1) ltac:(lia)) as [Ha [Hb Hc]].
        destruct (clicks cs (step - 1) profile) as [final subs]. cbn [fst snd] in *.
        repeat split; try lia; [exact Hb|]. intros Hne. specialize (Hc Hne).
        unfold continues in Hc. lia.
      * destruct (IH step Hstep) as [Ha [Hb Hc]].
        destruct (clicks cs step profile) as [final subs]. cbn [fst snd] in *.
        repeat split; try lia; [exact Hb|]. intros Hne. specialize (Hc Hne).
        unfold continues in Hc. lia.
    + destruct (Z.ltb_spec step totalSteps) as [H1|H1].
      * destruct (IH (step + 1) ltac:(lia)) as [Ha [Hb Hc]].
        destruct (clicks cs (step + 1) profile) as [final subs]. cbn [fst snd] in *.
        repeat split; try lia; [exact Hb|]. intros Hne. specialize (Hc Hne).
        unfold continues in Hc. cbn [List.length]. lia.
      * destruct (IH step Hstep) as [Ha [Hb Hc]].
        destruct (clicks cs step profile) as [final subs]. cbn [fst snd] in *.
        repeat split; try lia; [constructor; [reflexivity | exact Hb]|].
        intros _. cbn [List.length]. lia.
Qed.

Lemma wizard_steps_invariant_witness :
  1 <= fst (clicks [Continue; Continue; Back; Continue; Continue; Continue; Continue] 1
                   Spec.sampleProfile) <= totalSteps.
Proof.
  apply (wizard_steps_invariant
           [Continue; Continue; Back; Continue; Continue; Continue; Continue] 1
           Spec.sampleProfile).
  vm_compute. split; discriminate.
Defined.

End Wizard.
